(** * Inventory backend: operation lifecycle and stock-mutation engine

    A shallow embedding of the receipt / delivery handlers of [main.py]
    (with the document shapes of [schemas.py]) and the properties of the
    lifecycle engine proved about them.

    The document store is a set of collections; every collection is the
    sequence of its documents in insertion order.  Handlers run in a small
    state-and-exception monad over the process-wide store handle and the
    wall clock. *)

From Stdlib Require Import List String Ascii ZArith Lia Bool Arith.
From Stdlib Require Import Decimal DecimalNat DecimalString.
Import ListNotations.

Local Open Scope string_scope.
Local Open Scope Z_scope.

(** ** Documents (schemas.py) *)

(** [datetime] values only travel through the engine; they are never
    compared or computed with. *)
Definition datetime := Z.

(** [dict.get(key, default)] on a field that may be absent from a stored
    document. *)
Definition get {A : Type} (field : option A) (default : A) : A :=
  match field with
  | Some v => v
  | None => default
  end.

(** ReceiptLine / DeliveryLine: the two classes have the same fields. *)
Module Line.
Record t := mk { product_sku : string; quantity : Z }.
End Line.

(** Product.  [cost] is a float that the engine never reads; it is left
    out.  The two quantities are the document's integer fields, absent
    ([None]) when the key is missing from the stored document. *)
Module Product.
Record t := mk {
  sku : string;
  name : string;
  on_hand : option Z;
  free_to_use : option Z
}.
End Product.

Module Receipt.
Record t := mk {
  reference : string;
  from_location : option string;
  to_location : option string;
  contact : option string;
  schedule_date : option datetime;
  status : option string;
  responsible : option string;
  lines : option (list Line.t)
}.

Definition set_status (s : string) (r : t) : t :=
  mk (reference r) (from_location r) (to_location r) (contact r)
     (schedule_date r) (Some s) (responsible r) (lines r).
End Receipt.

Module Delivery.
Record t := mk {
  reference : string;
  from_location : option string;
  to_location : option string;
  contact : option string;
  schedule_date : option datetime;
  status : option string;
  responsible : option string;
  operation_type : string;
  lines : option (list Line.t)
}.

Definition set_status (s : string) (r : t) : t :=
  mk (reference r) (from_location r) (to_location r) (contact r)
     (schedule_date r) (Some s) (responsible r) (operation_type r)
     (lines r).
End Delivery.

Module Move.
Record t := mk {
  reference : string;
  date : datetime;
  contact : option string;
  from_location : option string;
  to_location : option string;
  product_sku : string;
  quantity : Z;
  direction : string;
  status : string
}.
End Move.

(** ** The document store *)

Record Store := mkStore {
  product : list Product.t;
  receipt : list Receipt.t;
  delivery : list Delivery.t;
  move : list Move.t
}.

Definition set_product (c : list Product.t) (s : Store) : Store :=
  mkStore c (receipt s) (delivery s) (move s).
Definition set_receipt (c : list Receipt.t) (s : Store) : Store :=
  mkStore (product s) c (delivery s) (move s).
Definition set_delivery (c : list Delivery.t) (s : Store) : Store :=
  mkStore (product s) (receipt s) c (move s).
Definition set_move (c : list Move.t) (s : Store) : Store :=
  mkStore (product s) (receipt s) (delivery s) c.

(** pymongo's [find_one(filter)]: the first document, in the collection's
    natural order, that matches the filter. *)
Definition find_one {D : Type} (filt : D -> bool) (col : list D) : option D :=
  List.find filt col.

(** pymongo's [update_one(filter, update)]: the update is applied to the
    first matching document only; with no match nothing happens and nothing
    is reported. *)
Fixpoint update_one {D : Type} (filt : D -> bool) (upd : D -> D)
    (col : list D) : list D :=
  match col with
  | [] => []
  | d :: rest =>
      if filt d then upd d :: rest else d :: update_one filt upd rest
  end.

(** pymongo's [count_documents({})]. *)
Definition count_documents {D : Type} (col : list D) : nat := List.length col.

(** Modelled from the spec: [create_document] of the [database] module,
    which [main.py] imports and whose source is missing.  The spec describes
    the store
    as insert-only with listing "in creation order (store-defined, typically
    insertion order)": the new document goes to the end of its collection. *)
Definition create_document {D : Type} (col : list D) (doc : D) : list D :=
  (col ++ [doc])%list.

(** The filters the handlers use. *)
Definition by_sku (s : string) (p : Product.t) : bool :=
  String.eqb (Product.sku p) s.
Definition by_receipt_reference (r : string) (d : Receipt.t) : bool :=
  String.eqb (Receipt.reference d) r.
Definition by_delivery_reference (r : string) (d : Delivery.t) : bool :=
  String.eqb (Delivery.reference d) r.

(** The update [{"$inc": {"on_hand": d, "free_to_use": d}}]: a missing field
    is created holding the increment. *)
Definition inc_stock (d : Z) (p : Product.t) : Product.t :=
  Product.mk (Product.sku p) (Product.name p)
             (Some (get (Product.on_hand p) 0 + d))
             (Some (get (Product.free_to_use p) 0 + d)).

(** ** The handler monad *)

(** The world a request handler runs in: the module-level handle [db]
    ([None] when the database is not configured) and the wall clock, given
    as the sequence of the values successive readings return. *)
Record World := mkWorld {
  db : option Store;
  clock : nat -> datetime;
  ticks : nat
}.

Inductive outcome (A : Type) : Type :=
| Ok (a : A)
| HTTPException (status_code : Z) (detail : string)
| Uncaught (exception : string).
Arguments Ok {A} a.
Arguments HTTPException {A} status_code detail.
Arguments Uncaught {A} exception.

(** An exception leaves the world as it is when it is raised: nothing is
    rolled back. *)
Definition M (A : Type) : Type := World -> outcome A * World.

Definition ret {A : Type} (a : A) : M A := fun w => (Ok a, w).

Definition bind {A B : Type} (m : M A) (k : A -> M B) : M B :=
  fun w =>
    match m w with
    | (Ok a, w') => k a w'
    | (HTTPException c d, w') => (HTTPException c d, w')
    | (Uncaught e, w') => (Uncaught e, w')
    end.

Definition raise {A : Type} (status_code : Z) (detail : string) : M A :=
  fun w => (HTTPException status_code detail, w).

Definition throw {A : Type} (exception : string) : M A :=
  fun w => (Uncaught exception, w).

Declare Scope handler_scope.
Delimit Scope handler_scope with handler.
Notation "x <- c1 ;; c2" := (bind c1 (fun x => c2))
  (at level 100, c1 at next level, right associativity) : handler_scope.
Notation "c1 ;; c2" := (bind c1 (fun _ => c2))
  (at level 100, right associativity) : handler_scope.
Local Open Scope handler_scope.

(** [for x in xs: body], threading the variables the body assigns. *)
Fixpoint for_in {A S : Type} (xs : list A) (body : A -> S -> M S) (acc : S)
    : M S :=
  match xs with
  | [] => ret acc
  | x :: rest => acc' <- body x acc ;; for_in rest body acc'
  end.

(** [for x in xs: body] for a body that assigns nothing. *)
Definition for_each {A : Type} (xs : list A) (body : A -> M unit) : M unit :=
  for_in xs (fun x _ => body x) tt.

(** [datetime.utcnow()]. *)
Definition utcnow : M datetime :=
  fun w => (Ok (clock w (ticks w)), mkWorld (db w) (clock w) (S (ticks w))).

(** [db[...]]: subscripting the handle; on [None] Python raises TypeError. *)
Definition the_db : M Store :=
  fun w =>
    match db w with
    | Some s => (Ok s, w)
    | None => (Uncaught "TypeError", w)
    end.

Definition modify_db (f : Store -> Store) : M unit :=
  fun w =>
    match db w with
    | Some s => (Ok tt, mkWorld (Some (f s)) (clock w) (ticks w))
    | None => (Uncaught "TypeError", w)
    end.

(** ** Receipts (main.py) *)

Module Response.
Record t := mk { reference : string; status : string }.
End Response.

Module ReceiptCreate.
Record t := mk {
  from_location : option string;
  to_location : option string;
  contact : option string;
  schedule_date : option datetime;
  lines : list Line.t
}.
End ReceiptCreate.

(** Python's [x or default] on an optional string: [None] and the empty
    string are both falsy. *)
Definition str_or (x : option string) (default : string) : string :=
  match x with
  | Some s => if String.eqb s "" then default else s
  | None => default
  end.

(** [payload.schedule_date or datetime.utcnow()]: a datetime is always
    truthy, and the clock is read only when the field is [None]. *)
Definition date_or_now (x : option datetime) : M datetime :=
  match x with
  | Some d => ret d
  | None => utcnow
  end.

(** Validation of the lines by the ReceiptLine / DeliveryLine model:
    [quantity: int = Field(ge=0)]. *)
Definition validate_lines (ls : list Line.t) : M (list Line.t) :=
  if forallb (fun l => 0 <=? Line.quantity l) ls then ret ls
  else throw "ValidationError".

(** Python's [format(n, "04d")] for a count [n >= 0]: the decimal digits,
    left-padded with zeros to a width of at least four. *)
Definition decimal (n : nat) : string :=
  NilZero.string_of_uint (Nat.to_uint n).

Fixpoint zeros (k : nat) : string :=
  match k with
  | O => ""
  | S k' => String "0" (zeros k')
  end.

Definition format_04d (n : nat) : string :=
  let digits := decimal n in
  zeros (4 - String.length digits) ++ digits.

Definition create_receipt (payload : ReceiptCreate.t) : M Receipt.t :=
  fun w =>
    match db w with
    | None => raise 500 "DB not available" w
    | Some _ =>
      (s <- the_db ;;
       let count := (count_documents (receipt s) + 1)%nat in
       let reference := "WH/IN/" ++ format_04d count in
       schedule_date <- date_or_now (ReceiptCreate.schedule_date payload) ;;
       lines <- validate_lines (ReceiptCreate.lines payload) ;;
       let rec :=
         Receipt.mk reference
                    (ReceiptCreate.from_location payload)
                    (Some (str_or (ReceiptCreate.to_location payload) "STOCK"))
                    (ReceiptCreate.contact payload)
                    (Some schedule_date)
                    (Some "Draft")
                    (Some "admin")
                    (Some lines) in
       modify_db (fun s => set_receipt (create_document (receipt s) rec) s) ;;
       ret rec) w
    end.

Definition receipt_action (reference : string) (action : string)
    : M Response.t :=
  s <- the_db ;;
  match find_one (by_receipt_reference reference) (receipt s) with
  | None => raise 404 "Not found"
  | Some rec =>
    let status := get (Receipt.status rec) "Draft" in
    status <-
      (if String.eqb action "todo" && String.eqb status "Draft" then
         ret "Ready"
       else if String.eqb action "validate" && String.eqb status "Ready" then
         (* Apply stock in *)
         for_each (get (Receipt.lines rec) [])
           (fun line =>
              modify_db (fun s =>
                set_product
                  (update_one (by_sku (Line.product_sku line))
                              (inc_stock (Line.quantity line))
                              (product s)) s)) ;;
         (* Log moves *)
         for_each (get (Receipt.lines rec) [])
           (fun line =>
              date <- utcnow ;;
              let mv :=
                Move.mk reference date
                        (Receipt.contact rec)
                        (Receipt.from_location rec)
                        (Receipt.to_location rec)
                        (Line.product_sku line)
                        (Line.quantity line)
                        "in" "Done" in
              modify_db (fun s => set_move (create_document (move s) mv) s)) ;;
         ret "Done"
       else if String.eqb action "cancel" then
         ret "Canceled"
       else
         ret status) ;;
    modify_db (fun s =>
      set_receipt
        (update_one (by_receipt_reference reference)
                    (Receipt.set_status status) (receipt s)) s) ;;
    ret (Response.mk reference status)
  end.

(** ** Deliveries (main.py) *)

Module DeliveryCreate.
Record t := mk {
  to_location : option string;
  contact : option string;
  schedule_date : option datetime;
  lines : list Line.t
}.
End DeliveryCreate.

Definition create_delivery (payload : DeliveryCreate.t) : M Delivery.t :=
  fun w =>
    match db w with
    | None => raise 500 "DB not available" w
    | Some _ =>
      (s <- the_db ;;
       let count := (count_documents (delivery s) + 1)%nat in
       let reference := "WH/OUT/" ++ format_04d count in
       schedule_date <- date_or_now (DeliveryCreate.schedule_date payload) ;;
       lines <- validate_lines (DeliveryCreate.lines payload) ;;
       let doc :=
         Delivery.mk reference
                     (Some "STOCK")
                     (Some (str_or (DeliveryCreate.to_location payload)
                                   "CUSTOMER"))
                     (DeliveryCreate.contact payload)
                     (Some schedule_date)
                     (Some "Draft")
                     (Some "admin")
                     "Customer Delivery"
                     (Some lines) in
       modify_db (fun s => set_delivery (create_document (delivery s) doc) s) ;;
       ret doc) w
    end.

(** The test of the stock check:
    [not prod or prod.get("free_to_use", 0) < line["quantity"]]. *)
Definition is_insufficient (prod : option Product.t) (line : Line.t) : bool :=
  match prod with
  | None => true
  | Some p => get (Product.free_to_use p) 0 <? Line.quantity line
  end.

Definition delivery_action (reference : string) (action : string)
    : M Response.t :=
  s <- the_db ;;
  match find_one (by_delivery_reference reference) (delivery s) with
  | None => raise 404 "Not found"
  | Some rec =>
    let status := get (Delivery.status rec) "Draft" in
    status <-
      (if String.eqb action "todo" && String.eqb status "Draft" then
         (* Check stock *)
         insufficient <-
           for_in (get (Delivery.lines rec) [])
             (fun line insufficient =>
                s <- the_db ;;
                let prod :=
                  find_one (by_sku (Line.product_sku line)) (product s) in
                if is_insufficient prod line
                then ret (insufficient ++ [line])%list
                else ret insufficient)
             [] ;;
         ret (match insufficient with [] => "Ready" | _ :: _ => "Waiting" end)
       else if String.eqb action "validate" && String.eqb status "Ready" then
         (* Apply stock out *)
         for_each (get (Delivery.lines rec) [])
           (fun line =>
              modify_db (fun s =>
                set_product
                  (update_one (by_sku (Line.product_sku line))
                              (inc_stock (- Line.quantity line))
                              (product s)) s)) ;;
         (* Log moves *)
         for_each (get (Delivery.lines rec) [])
           (fun line =>
              date <- utcnow ;;
              let mv :=
                Move.mk reference date
                        (Delivery.contact rec)
                        (Delivery.from_location rec)
                        (Delivery.to_location rec)
                        (Line.product_sku line)
                        (Line.quantity line)
                        "out" "Done" in
              modify_db (fun s => set_move (create_document (move s) mv) s)) ;;
         ret "Done"
       else if String.eqb action "cancel" then
         ret "Canceled"
       else
         ret status) ;;
    modify_db (fun s =>
      set_delivery
        (update_one (by_delivery_reference reference)
                    (Delivery.set_status status) (delivery s)) s) ;;
    ret (Response.mk reference status)
  end.

(** ** What the two loops of [validate] compute *)

(** The product collection after the stock loop: one [update_one] per line,
    in line order; [delta] is the signed increment of a line. *)
Fixpoint apply_stock (delta : Line.t -> Z) (lines : list Line.t)
    (col : list Product.t) : list Product.t :=
  match lines with
  | [] => col
  | line :: rest =>
      apply_stock delta rest
        (update_one (by_sku (Line.product_sku line)) (inc_stock (delta line))
                    col)
  end.

(** The moves the logging loop builds: one per line, in line order, each
    dated by its own reading of the clock. *)
Fixpoint moves_of (mk : datetime -> Line.t -> Move.t) (clock : nat -> datetime)
    (t : nat) (lines : list Line.t) : list Move.t :=
  match lines with
  | [] => []
  | line :: rest => mk (clock t) line :: moves_of mk clock (S t) rest
  end.

(** The quantity a list of lines asks for one sku. *)
Fixpoint total_quantity (sku : string) (lines : list Line.t) : Z :=
  match lines with
  | [] => 0
  | line :: rest =>
      (if String.eqb (Line.product_sku line) sku then Line.quantity line
       else 0) + total_quantity sku rest
  end.

(** A move logs a line of an operation. *)
Definition logs (reference direction : string) (line : Line.t) (mv : Move.t)
    : Prop :=
  Move.reference mv = reference /\
  Move.product_sku mv = Line.product_sku line /\
  Move.quantity mv = Line.quantity line /\
  Move.direction mv = direction /\
  Move.status mv = "Done".

(** The move a validated receipt line is logged as. *)
Definition receipt_move (reference : string) (rec : Receipt.t)
    (date : datetime) (line : Line.t) : Move.t :=
  Move.mk reference date (Receipt.contact rec) (Receipt.from_location rec)
          (Receipt.to_location rec) (Line.product_sku line)
          (Line.quantity line) "in" "Done".

(** The move a validated delivery line is logged as. *)
Definition delivery_move (reference : string) (rec : Delivery.t)
    (date : datetime) (line : Line.t) : Move.t :=
  Move.mk reference date (Delivery.contact rec) (Delivery.from_location rec)
          (Delivery.to_location rec) (Line.product_sku line)
          (Line.quantity line) "out" "Done".

(** The status an action that is not an applicable [validate] (nor, for a
    delivery, an applicable [todo]) leads to. *)
Definition cancel_or_keep (action status : string) : string :=
  if String.eqb action "cancel" then "Canceled" else status.

(** The lines of a delivery the stock check of [todo] finds insufficient:
    the test of the loop, applied to every line in order. *)
Definition short_lines (s : Store) (rec : Delivery.t) : list Line.t :=
  filter (fun line =>
            is_insufficient
              (find_one (by_sku (Line.product_sku line)) (product s)) line)
         (get (Delivery.lines rec) []).

(** ** Receipts and deliveries as one kind of operation *)

Inductive OperationType : Type := IsReceipt | IsDelivery.

(** The handler of an operation type. *)
Definition operation_action (t : OperationType)
    : string -> string -> M Response.t :=
  match t with
  | IsReceipt => receipt_action
  | IsDelivery => delivery_action
  end.

(** The status the handler reads for a reference: that of the first
    operation found under it, Draft when the document has no status;
    [None] when the reference is unknown. *)
Definition current_status (t : OperationType) (s : Store)
    (reference : string) : option string :=
  match t with
  | IsReceipt =>
      option_map (fun rec => get (Receipt.status rec) "Draft")
                 (find_one (by_receipt_reference reference) (receipt s))
  | IsDelivery =>
      option_map (fun rec => get (Delivery.status rec) "Draft")
                 (find_one (by_delivery_reference reference) (delivery s))
  end.

(** The last write of both handlers:
    [update_one({"reference": reference}, {"$set": {"status": status}})]. *)
Definition persist_status (t : OperationType) (reference status : string)
    (s : Store) : Store :=
  match t with
  | IsReceipt =>
      set_receipt
        (update_one (by_receipt_reference reference)
                    (Receipt.set_status status) (receipt s)) s
  | IsDelivery =>
      set_delivery
        (update_one (by_delivery_reference reference)
                    (Delivery.set_status status) (delivery s)) s
  end.

(** The lines the handler reads for a reference: those of the first
    operation found under it, none when the document has no lines. *)
Definition operation_lines (t : OperationType) (s : Store)
    (reference : string) : option (list Line.t) :=
  match t with
  | IsReceipt =>
      option_map (fun rec => get (Receipt.lines rec) [])
                 (find_one (by_receipt_reference reference) (receipt s))
  | IsDelivery =>
      option_map (fun rec => get (Delivery.lines rec) [])
                 (find_one (by_delivery_reference reference) (delivery s))
  end.

(** The increment [validate] applies for a line, and the direction it logs
    the line with. *)
Definition stock_delta (t : OperationType) (l : Line.t) : Z :=
  match t with
  | IsReceipt => Line.quantity l
  | IsDelivery => - Line.quantity l
  end.

Definition direction_of (t : OperationType) : string :=
  match t with
  | IsReceipt => "in"
  | IsDelivery => "out"
  end.

(** ** Reading a reference back *)

(** Reading a decimal numeral back, leading zeros allowed. *)
Definition parse_count (s : string) : option nat :=
  option_map Nat.of_uint (NilZero.uint_of_string s).

(** ** Stores for concrete runs *)

Definition desk : Product.t := Product.mk "DESK001" "Desk" (Some 50) (Some 45).
Definition table : Product.t :=
  Product.mk "TABLE001" "Table" (Some 50) (Some 50).

Definition empty_store : Store := mkStore [desk; table] [] [] [].
Definition world0 : World := mkWorld (Some empty_store) (fun n => Z.of_nat n) 0.

Definition run {A : Type} (m : M A) (w : World) : outcome A * World := m w.
Definition exec {A : Type} (m : M A) (w : World) : World := snd (m w).
Definition result {A : Type} (m : M A) (w : World) : outcome A := fst (m w).

Definition store_of (w : World) : Store :=
  match db w with
  | Some s => s
  | None => mkStore [] [] [] []
  end.

Definition line (sku : string) (quantity : Z) : Line.t :=
  Line.mk sku quantity.

Definition demo_receipt (reference status : string) (lines : list Line.t)
    : Receipt.t :=
  Receipt.mk reference (Some "SUPPLIER") (Some "STOCK") (Some "Acme") (Some 0)
             (Some status) (Some "admin") (Some lines).

Definition demo_delivery (reference status : string) (lines : list Line.t)
    : Delivery.t :=
  Delivery.mk reference (Some "STOCK") (Some "CUSTOMER") (Some "John")
              (Some 0) (Some status) (Some "admin") "Customer Delivery"
              (Some lines).

Definition demo_store : Store :=
  mkStore
    [desk; table]
    [demo_receipt "WH/IN/0001" "Ready" [line "DESK001" 5; line "GHOST" 2];
     demo_receipt "WH/IN/0002" "Draft" [line "TABLE001" 1];
     demo_receipt "WH/IN/0003" "Done" [line "DESK001" 7];
     demo_receipt "WH/IN/0004" "Canceled" [line "DESK001" 1]]
    [demo_delivery "WH/OUT/0001" "Waiting" [line "DESK001" 6];
     demo_delivery "WH/OUT/0002" "Ready" [line "DESK001" 6; line "GHOST" 1];
     demo_delivery "WH/OUT/0003" "Draft" [line "DESK001" 50];
     demo_delivery "WH/OUT/0004" "Draft" [line "TABLE001" 10];
     demo_delivery "WH/OUT/0005" "Done" [line "TABLE001" 3];
     demo_delivery "WH/OUT/0006" "Draft" [line "TABLE001" 1; line "GHOST" 0]]
    [].

Definition demo_world : World :=
  mkWorld (Some demo_store) (fun n => Z.of_nat n) 0.

(** ** Reading one operation (main.py) *)

(** [get_receipt] / [get_delivery]: the lookup, the 404 and the fields of
    the document that is answered.  [main.py] answers [obj_to_dict(rec)],
    that is these same fields and, beside them, the key "id" holding [str]
    of the identifier the store gave the document.  That identifier is
    assigned by the store and is no part of the documents modelled here, so
    the answer modelled is the stored document without it; what
    [obj_to_dict] does to a dictionary is modelled on its own further
    down. *)
Definition get_receipt (reference : string) : M Receipt.t :=
  s <- the_db ;;
  match find_one (by_receipt_reference reference) (receipt s) with
  | None => raise 404 "Not found"
  | Some rec => ret rec
  end.

Definition get_delivery (reference : string) : M Delivery.t :=
  s <- the_db ;;
  match find_one (by_delivery_reference reference) (delivery s) with
  | None => raise 404 "Not found"
  | Some rec => ret rec
  end.

(** ** The transition table of the lifecycle *)

(** The status the transition table gives an operation of type [t] in
    status [st] under [action]; [in_stock] tells whether every line of a
    delivery passes the stock check. *)
Definition next_status (t : OperationType) (action st : string)
    (in_stock : bool) : string :=
  if String.eqb action "todo" && String.eqb st "Draft" then
    match t with
    | IsReceipt => "Ready"
    | IsDelivery => if in_stock then "Ready" else "Waiting"
    end
  else if String.eqb action "validate" && String.eqb st "Ready" then "Done"
  else if String.eqb action "cancel" then "Canceled"
  else st.

(** The stock check of [todo] over all the lines of a delivery. *)
Definition in_stock (s : Store) (lines : list Line.t) : bool :=
  forallb (fun l =>
             negb (is_insufficient
                     (find_one (by_sku (Line.product_sku l)) (product s)) l))
          lines.

(** The lines an action applies to the stock and logs: all the lines of
    the operation for an applicable [validate], none otherwise. *)
Definition applied_lines (action st : string) (lines : list Line.t)
    : list Line.t :=
  if String.eqb action "validate" && String.eqb st "Ready" then lines
  else [].


(** A client sending one action after the other for the same reference;
    the answers are dropped. *)
Fixpoint run_actions (t : OperationType) (reference : string)
    (actions : list string) (w : World) : World :=
  match actions with
  | [] => w
  | action :: rest =>
      run_actions t reference rest
                  (exec (operation_action t reference action) w)
  end.

(** A product whose free quantity does not exceed the quantity on hand. *)
Definition not_overcommitted (p : Product.t) : Prop :=
  get (Product.free_to_use p) 0 <= get (Product.on_hand p) 0.

(** Two product documents at the same place of the collection before and
    after an action: the same sku and name, and the same quantity held
    back (on hand but not free to use). *)
Definition same_reserve (p p' : Product.t) : Prop :=
  Product.sku p' = Product.sku p /\
  Product.name p' = Product.name p /\
  get (Product.on_hand p') 0 - get (Product.free_to_use p') 0
  = get (Product.on_hand p) 0 - get (Product.free_to_use p) 0.

(** References numbered in creation order: the i-th document of a
    collection (counting from one) carries the i-th reference. *)
Definition numbered (prefix : string) (refs : list string) : Prop :=
  forall (i : nat) (r : string),
    nth_error refs i = Some r -> r = prefix ++ format_04d (i + 1).

Definition numbered_store (s : Store) : Prop :=
  numbered "WH/IN/" (map Receipt.reference (receipt s)) /\
  numbered "WH/OUT/" (map Delivery.reference (delivery s)).

(** The documents the creation handlers build, given the date the
    schedule falls back to. *)
Definition new_receipt (s : Store) (payload : ReceiptCreate.t)
    (schedule_date : datetime) : Receipt.t :=
  Receipt.mk ("WH/IN/" ++ format_04d (count_documents (receipt s) + 1))
             (ReceiptCreate.from_location payload)
             (Some (str_or (ReceiptCreate.to_location payload) "STOCK"))
             (ReceiptCreate.contact payload)
             (Some schedule_date)
             (Some "Draft")
             (Some "admin")
             (Some (ReceiptCreate.lines payload)).

Definition new_delivery (s : Store) (payload : DeliveryCreate.t)
    (schedule_date : datetime) : Delivery.t :=
  Delivery.mk ("WH/OUT/" ++ format_04d (count_documents (delivery s) + 1))
              (Some "STOCK")
              (Some (str_or (DeliveryCreate.to_location payload) "CUSTOMER"))
              (DeliveryCreate.contact payload)
              (Some schedule_date)
              (Some "Draft")
              (Some "admin")
              "Customer Delivery"
              (Some (DeliveryCreate.lines payload)).

(** ** Seed data (main.py) *)

Module Warehouse.
Record t := mk { name : string; code : string; address : option string }.
End Warehouse.

Module Location.
Record t := mk { name : string; code : string; warehouse_code : string }.
End Location.

(** The two settings collections.  The lifecycle engine never reads them;
    they are carried beside the store the engine works on. *)
Record Settings := mkSettings {
  warehouse : list Warehouse.t;
  location : list Location.t
}.

Definition by_warehouse_code (c : string) (d : Warehouse.t) : bool :=
  String.eqb (Warehouse.code d) c.
Definition by_location_code (c : string) (d : Location.t) : bool :=
  String.eqb (Location.code d) c.

(** The local function [upsert] of [seed]: the document is created only
    when the filter finds none. *)
Definition upsert {D : Type} (filt : D -> bool) (doc : D) (col : list D)
    : list D :=
  match find_one filt col with
  | Some _ => col
  | None => create_document col doc
  end.

Definition seed_receipt (schedule_date : datetime) : Receipt.t :=
  Receipt.mk "WH/IN/0001" (Some "SUPPLIER") (Some "STOCK") (Some "Acme")
             (Some schedule_date) (Some "Ready") (Some "admin")
             (Some [Line.mk "DESK001" 5]).

Definition seed_delivery (schedule_date : datetime) : Delivery.t :=
  Delivery.mk "WH/OUT/0001" (Some "STOCK") (Some "CUSTOMER") (Some "John")
              (Some schedule_date) (Some "Waiting") (Some "admin")
              "Customer Delivery" (Some [Line.mk "DESK001" 6]).

(** [seed], answering the "status" of its response together with the
    settings collections as it leaves them. *)
Definition seed (cfg : Settings) : M (string * Settings) :=
  fun w =>
    match db w with
    | None => raise 500 "Database not configured" w
    | Some _ =>
      (let warehouses :=
         upsert (by_warehouse_code "WH")
                (Warehouse.mk "Main Warehouse" "WH" (Some "HQ"))
                (warehouse cfg) in
       let locations :=
         upsert (by_location_code "STOCK") (Location.mk "Stock" "STOCK" "WH")
                (location cfg) in
       let locations :=
         upsert (by_location_code "CUSTOMER")
                (Location.mk "Customer" "CUSTOMER" "WH") locations in
       modify_db (fun s =>
         set_product (upsert (by_sku "DESK001") desk (product s)) s) ;;
       modify_db (fun s =>
         set_product (upsert (by_sku "TABLE001") table (product s)) s) ;;
       (* Create example operations if none *)
       s <- the_db ;;
       (if Nat.eqb (count_documents (receipt s)) 0 then
          date <- utcnow ;;
          modify_db (fun s =>
            set_receipt (create_document (receipt s) (seed_receipt date)) s)
        else ret tt) ;;
       s <- the_db ;;
       (if Nat.eqb (count_documents (delivery s)) 0 then
          date <- utcnow ;;
          modify_db (fun s =>
            set_delivery (create_document (delivery s) (seed_delivery date))
                         s)
        else ret tt) ;;
       ret ("ok", mkSettings warehouses locations)) w
    end.

(** The settings and the store [seed] leaves, and the number of times it
    reads the clock. *)
Definition seeded_settings (cfg : Settings) : Settings :=
  mkSettings
    (upsert (by_warehouse_code "WH")
            (Warehouse.mk "Main Warehouse" "WH" (Some "HQ")) (warehouse cfg))
    (upsert (by_location_code "CUSTOMER")
            (Location.mk "Customer" "CUSTOMER" "WH")
            (upsert (by_location_code "STOCK")
                    (Location.mk "Stock" "STOCK" "WH") (location cfg))).

Definition clock_reads {D : Type} (col : list D) : nat :=
  if Nat.eqb (count_documents col) 0 then 1%nat else 0%nat.

Definition seeded_store (s : Store) (clock : nat -> datetime) (t : nat)
    : Store :=
  mkStore
    (upsert (by_sku "TABLE001") table
            (upsert (by_sku "DESK001") desk (product s)))
    (if Nat.eqb (count_documents (receipt s)) 0
     then create_document (receipt s) (seed_receipt (clock t))
     else receipt s)
    (if Nat.eqb (count_documents (delivery s)) 0
     then create_document (delivery s)
            (seed_delivery (clock (t + clock_reads (receipt s))%nat))
     else delivery s)
    (move s).

(** Everything [seed] looks for is there. *)
Definition seeded (cfg : Settings) (s : Store) : Prop :=
  find_one (by_warehouse_code "WH") (warehouse cfg) <> None /\
  find_one (by_location_code "STOCK") (location cfg) <> None /\
  find_one (by_location_code "CUSTOMER") (location cfg) <> None /\
  find_one (by_sku "DESK001") (product s) <> None /\
  find_one (by_sku "TABLE001") (product s) <> None /\
  receipt s <> [] /\
  delivery s <> [].

(** ** Serialization of a document (main.py) *)

(** The values an [_id] can hold, as far as [obj_to_dict] looks at them. *)
Inductive value : Type :=
| VNone
| VBool (b : bool)
| VInt (z : Z)
| VStr (s : string)
| VObjectId (hex : string).

(** Python's truth value of a value. *)
Definition truthy (v : value) : bool :=
  match v with
  | VNone => false
  | VBool b => b
  | VInt z => negb (z =? 0)
  | VStr s => negb (String.eqb s "")
  | VObjectId _ => true
  end.

(** Python's [str]. *)
Definition py_str (v : value) : string :=
  match v with
  | VNone => "None"
  | VBool true => "True"
  | VBool false => "False"
  | VInt z => NilZero.string_of_int (Z.to_int z)
  | VStr s => s
  | VObjectId hex => hex
  end.

(** A Python [dict] with string keys: its items in insertion order. *)
Definition dict : Type := list (string * value).

Definition keys (d : dict) : list string := map fst d.

(** [d.get(k)]. *)
Definition dict_get (k : string) (d : dict) : option value :=
  option_map snd (find (fun item => String.eqb (fst item) k) d).

(** [d.pop(k)], the dictionary it leaves. *)
Fixpoint dict_pop (k : string) (d : dict) : dict :=
  match d with
  | [] => []
  | (k', v) :: rest =>
      if String.eqb k' k then rest else (k', v) :: dict_pop k rest
  end.

(** [d[k] = v]: an existing key keeps its place, a new one goes last. *)
Fixpoint dict_set (k : string) (v : value) (d : dict) : dict :=
  match d with
  | [] => [(k, v)]
  | (k', v') :: rest =>
      if String.eqb k' k then (k, v) :: rest
      else (k', v') :: dict_set k v rest
  end.

Inductive pyobj : Type :=
| Dict (d : dict)
| NotDict (v : value).

Definition obj_to_dict (obj : pyobj) : pyobj :=
  match obj with
  | Dict d =>
      match dict_get "_id" d with
      | Some id =>
          if truthy id
          then Dict (dict_set "id" (VStr (py_str id)) (dict_pop "_id" d))
          else Dict d
      | None => Dict d
      end
  | NotDict v => NotDict v
  end.

(** ** Demo authentication (main.py) *)

Module LoginRequest.
Record t := mk { login_id : string; password : string }.
End LoginRequest.

Module LoginResponse.
Record t := mk {
  token : string;
  login_id : string;
  name : string;
  avatar_url : string
}.
End LoginResponse.

Definition login (payload : LoginRequest.t) : outcome LoginResponse.t :=
  if String.eqb (LoginRequest.login_id payload) ""
     || String.eqb (LoginRequest.password payload) ""
  then HTTPException 400 "Missing credentials"
  else Ok (LoginResponse.mk "demo-token" (LoginRequest.login_id payload)
                            "Demo User" "https://i.pravatar.cc/100").

Module ForgotPayload.
Record t := mk {
  email : string;
  otp : option string;
  new_password : option string;
  confirm_password : option string
}.
End ForgotPayload.

(** [a != b] on optional strings. *)
Definition differ (a b : option string) : bool :=
  match a, b with
  | Some x, Some y => negb (String.eqb x y)
  | None, None => false
  | _, _ => true
  end.

(** [forgot], answering the "message" of its response. *)
Definition forgot (payload : ForgotPayload.t) : outcome string :=
  if negb (String.eqb (get (ForgotPayload.otp payload) "") "") then
    if differ (ForgotPayload.new_password payload)
              (ForgotPayload.confirm_password payload)
    then HTTPException 400 "Passwords do not match"
    else Ok "Password reset successful"
  else Ok "OTP sent to email".

(** ** Lemmas on the store primitives *)

Section StorePrimitives.
Context {D : Type}.
Variables (filt : D -> bool) (upd : D -> D).

Lemma update_one_length (col : list D) :
  List.length (update_one filt upd col) = List.length col.
Proof.
  induction col as [|d rest IH]; simpl; [reflexivity|].
  destruct (filt d); simpl; [reflexivity | now rewrite IH].
Qed.

Lemma update_one_no_match (col : list D) :
  find_one filt col = None -> update_one filt upd col = col.
Proof.
  unfold find_one.
  induction col as [|d rest IH]; simpl; [reflexivity|].
  destruct (filt d); [discriminate|].
  intros H. now rewrite IH.
Qed.

Lemma update_one_fixed (col : list D) (d : D) :
  find_one filt col = Some d -> upd d = d -> update_one filt upd col = col.
Proof.
  unfold find_one.
  induction col as [|x rest IH]; simpl; [discriminate|].
  destruct (filt x).
  - intros [= ->] ->. reflexivity.
  - intros Hf Hu. now rewrite IH.
Qed.

Hypothesis upd_keeps_filt : forall d, filt (upd d) = filt d.

Lemma find_one_update_one (col : list D) :
  find_one filt (update_one filt upd col) = option_map upd (find_one filt col).
Proof.
  unfold find_one.
  induction col as [|d rest IH]; simpl; [reflexivity|].
  destruct (filt d) eqn:E; simpl.
  - now rewrite upd_keeps_filt, E.
  - now rewrite E.
Qed.

(** A second filter [other] that never selects what [filt] selects does
    not see the update. *)
Lemma find_one_update_one_other (other : D -> bool) (col : list D) :
  (forall d, other (upd d) = other d) ->
  (forall d, other d = true -> filt d = false) ->
  find_one other (update_one filt upd col) = find_one other col.
Proof.
  intros Hkeep Hdisj. unfold find_one.
  induction col as [|d rest IH]; simpl; [reflexivity|].
  destruct (filt d) eqn:E; simpl.
  - rewrite Hkeep. destruct (other d) eqn:O; [|reflexivity].
    apply Hdisj in O. congruence.
  - now rewrite IH.
Qed.
End StorePrimitives.

Lemma by_sku_inc_stock (s : string) (d : Z) (p : Product.t) :
  by_sku s (inc_stock d p) = by_sku s p.
Proof. reflexivity. Qed.

Lemma by_sku_disjoint (s1 s2 : string) (p : Product.t) :
  s1 <> s2 -> by_sku s1 p = true -> by_sku s2 p = false.
Proof.
  unfold by_sku. intros Hne H1.
  apply String.eqb_eq in H1. apply String.eqb_neq. congruence.
Qed.

(** The stock loop keeps every document in place, with its sku and name. *)
Lemma update_one_skus (s : string) (d : Z) (col : list Product.t) :
  map Product.sku (update_one (by_sku s) (inc_stock d) col)
  = map Product.sku col.
Proof.
  induction col as [|p rest IH]; simpl; [reflexivity|].
  destruct (by_sku s p); simpl; [reflexivity | now rewrite IH].
Qed.

Lemma apply_stock_skus (delta : Line.t -> Z) (lines : list Line.t) :
  forall col, map Product.sku (apply_stock delta lines col)
              = map Product.sku col.
Proof.
  induction lines as [|l rest IH]; intros col; simpl; [reflexivity|].
  now rewrite IH, update_one_skus.
Qed.

(** The effect of one [$inc] on the first product of a sku. *)
Lemma find_one_inc (s s' : string) (d : Z) (col : list Product.t) :
  find_one (by_sku s) (update_one (by_sku s') (inc_stock d) col)
  = if String.eqb s' s
    then option_map (inc_stock d) (find_one (by_sku s) col)
    else find_one (by_sku s) col.
Proof.
  destruct (String.eqb s' s) eqn:E.
  - apply String.eqb_eq in E. subst s'.
    apply find_one_update_one. intros p. apply by_sku_inc_stock.
  - apply String.eqb_neq in E.
    apply find_one_update_one_other.
    + intros p. apply by_sku_inc_stock.
    + intros p Hp. apply (by_sku_disjoint s s'); [congruence | exact Hp].
Qed.

(** The total effect of the stock loop on the first product of a sku. *)
Lemma find_one_apply_stock (delta : Line.t -> Z) (sku : string)
    (lines : list Line.t) :
  forall (col : list Product.t) (p : Product.t),
    find_one (by_sku sku) col = Some p ->
    exists p',
      find_one (by_sku sku) (apply_stock delta lines col) = Some p' /\
      Product.sku p' = Product.sku p /\
      Product.name p' = Product.name p /\
      get (Product.on_hand p') 0
      = get (Product.on_hand p) 0
        + fold_right (fun l acc =>
            (if String.eqb (Line.product_sku l) sku then delta l else 0) + acc)
            0 lines /\
      get (Product.free_to_use p') 0
      = get (Product.free_to_use p) 0
        + fold_right (fun l acc =>
            (if String.eqb (Line.product_sku l) sku then delta l else 0) + acc)
            0 lines.
Proof.
  induction lines as [|l rest IH]; intros col p Hp; simpl.
  - exists p. repeat split; try assumption; lia.
  - pose proof (find_one_inc sku (Line.product_sku l) (delta l) col) as Hstep.
    rewrite Hp in Hstep.
    destruct (String.eqb (Line.product_sku l) sku); simpl in Hstep.
    + destruct (IH _ _ Hstep) as (p' & Hf & Hs & Hn & Ho & Hfree).
      exists p'. repeat split; try assumption.
      * rewrite Ho. simpl. lia.
      * rewrite Hfree. simpl. lia.
    + destruct (IH _ _ Hstep) as (p' & Hf & Hs & Hn & Ho & Hfree).
      exists p'. repeat split; try assumption; lia.
Qed.


Lemma total_quantity_minus (sku : string) (lines : list Line.t) :
  fold_right (fun l acc =>
    (if String.eqb (Line.product_sku l) sku then - Line.quantity l else 0)
    + acc) 0 lines = - total_quantity sku lines.
Proof.
  induction lines as [|l rest IH]; simpl; [reflexivity|].
  rewrite IH. destruct (String.eqb (Line.product_sku l) sku); lia.
Qed.

(** A sku without a product stays without one, and its lines change
    nothing. *)
Lemma find_one_apply_stock_none (delta : Line.t -> Z) (sku : string)
    (lines : list Line.t) :
  forall col, find_one (by_sku sku) col = None ->
              find_one (by_sku sku) (apply_stock delta lines col) = None.
Proof.
  induction lines as [|l rest IH]; intros col Hnone; simpl; [assumption|].
  apply IH. rewrite find_one_inc, Hnone.
  now destruct (String.eqb (Line.product_sku l) sku).
Qed.

Lemma apply_stock_app (delta : Line.t -> Z) (l1 l2 : list Line.t) :
  forall col, apply_stock delta (l1 ++ l2) col
              = apply_stock delta l2 (apply_stock delta l1 col).
Proof.
  induction l1 as [|l rest IH]; intros col; simpl; [reflexivity|].
  apply IH.
Qed.

(** ** Running the handlers *)

Lemma world_eta (w : World) : mkWorld (db w) (clock w) (ticks w) = w.
Proof. now destruct w. Qed.

Lemma set_product_same (s : Store) : set_product (product s) s = s.
Proof. now destruct s. Qed.

Lemma set_move_same (s : Store) : set_move (move s) s = s.
Proof. now destruct s. Qed.

Lemma stock_loop_run (delta : Line.t -> Z) (lines : list Line.t) :
  forall (w : World) (s : Store),
    db w = Some s ->
    for_each lines
      (fun line =>
         modify_db (fun s =>
           set_product
             (update_one (by_sku (Line.product_sku line))
                         (inc_stock (delta line)) (product s)) s)) w
    = (Ok tt,
       mkWorld (Some (set_product (apply_stock delta lines (product s)) s))
               (clock w) (ticks w)).
Proof.
  unfold for_each.
  induction lines as [|l rest IH]; intros w s Hdb; simpl.
  - unfold ret. now rewrite set_product_same, <- Hdb, world_eta.
  - unfold bind at 1. unfold modify_db at 1. rewrite Hdb.
    erewrite IH by reflexivity. simpl. reflexivity.
Qed.

Lemma move_loop_run (mk : datetime -> Line.t -> Move.t)
    (lines : list Line.t) :
  forall (w : World) (s : Store),
    db w = Some s ->
    for_each lines
      (fun line =>
         date <- utcnow ;;
         modify_db (fun s =>
           set_move (create_document (move s) (mk date line)) s)) w
    = (Ok tt,
       mkWorld
         (Some (set_move (move s ++ moves_of mk (clock w) (ticks w) lines) s))
         (clock w) (ticks w + List.length lines)).
Proof.
  unfold for_each.
  induction lines as [|l rest IH]; intros w s Hdb; simpl.
  - unfold ret. rewrite app_nil_r, set_move_same, Nat.add_0_r, <- Hdb.
    now rewrite world_eta.
  - unfold bind at 1. unfold bind at 1. unfold utcnow at 1.
    unfold modify_db at 1. simpl. rewrite Hdb.
    erewrite IH by reflexivity. simpl.
    unfold create_document. rewrite <- app_assoc. simpl.
    now rewrite Nat.add_succ_r.
Qed.

(** The stock check of [todo] reads the store and collects, in order, the
    lines it finds insufficient. *)
Lemma check_loop_run (lines : list Line.t) :
  forall (w : World) (s : Store) (acc : list Line.t),
    db w = Some s ->
    for_in lines
      (fun line insufficient =>
         s <- the_db ;;
         let prod := find_one (by_sku (Line.product_sku line)) (product s) in
         if is_insufficient prod line
         then ret (insufficient ++ [line])%list
         else ret insufficient) acc w
    = (Ok (acc ++ filter (fun line =>
             is_insufficient
               (find_one (by_sku (Line.product_sku line)) (product s)) line)
             lines)%list, w).
Proof.
  induction lines as [|l rest IH]; intros w s acc Hdb; simpl.
  - unfold ret. now rewrite app_nil_r.
  - unfold bind at 1. unfold bind at 1. unfold the_db at 1. rewrite Hdb.
    destruct (is_insufficient _ l); unfold ret at 1.
    + rewrite (IH _ _ _ Hdb), <- app_assoc. reflexivity.
    + now rewrite (IH _ _ _ Hdb).
Qed.

Section ReceiptRuns.
Variables (w : World) (s : Store) (rec : Receipt.t) (reference : string).
Hypothesis Hdb : db w = Some s.
Hypothesis Hrec :
  find_one (by_receipt_reference reference) (receipt s) = Some rec.

Lemma receipt_validate_run :
  get (Receipt.status rec) "Draft" = "Ready" ->
  receipt_action reference "validate" w
  = (Ok (Response.mk reference "Done"),
     mkWorld
       (Some (mkStore
          (apply_stock Line.quantity (get (Receipt.lines rec) [])
                       (product s))
          (update_one (by_receipt_reference reference)
                      (Receipt.set_status "Done") (receipt s))
          (delivery s)
          (move s ++ moves_of (receipt_move reference rec) (clock w)
                              (ticks w) (get (Receipt.lines rec) []))))
       (clock w)
       (ticks w + List.length (get (Receipt.lines rec) []))).
Proof.
  intros Hst. unfold receipt_action.
  unfold bind at 1. unfold the_db at 1. rewrite Hdb, Hrec, Hst.
  cbn [String.eqb Ascii.eqb Bool.eqb andb].
  unfold bind at 1. unfold bind at 1. unfold bind at 1.
  rewrite (stock_loop_run Line.quantity _ w s Hdb).
  erewrite (move_loop_run (receipt_move reference rec)) by reflexivity.
  unfold ret at 1. unfold bind, modify_db, ret. simpl. reflexivity.
Qed.

Lemma receipt_todo_run :
  get (Receipt.status rec) "Draft" = "Draft" ->
  receipt_action reference "todo" w
  = (Ok (Response.mk reference "Ready"),
     mkWorld (Some (persist_status IsReceipt reference "Ready" s)) (clock w) (ticks w)).
Proof.
  intros Hst. unfold receipt_action.
  unfold bind at 1. unfold the_db at 1. rewrite Hdb, Hrec, Hst.
  cbn [String.eqb Ascii.eqb Bool.eqb andb].
  unfold bind, modify_db, ret. rewrite Hdb. reflexivity.
Qed.

Lemma receipt_other_run (action : string) :
  String.eqb action "todo" && String.eqb (get (Receipt.status rec) "Draft")
                                         "Draft" = false ->
  String.eqb action "validate" && String.eqb (get (Receipt.status rec) "Draft")
                                             "Ready" = false ->
  receipt_action reference action w
  = (Ok (Response.mk reference
           (cancel_or_keep action (get (Receipt.status rec) "Draft"))),
     mkWorld
       (Some (persist_status IsReceipt reference
                (cancel_or_keep action (get (Receipt.status rec) "Draft")) s))
       (clock w) (ticks w)).
Proof.
  intros Htodo Hval. unfold receipt_action.
  unfold bind at 1. unfold the_db at 1. rewrite Hdb, Hrec, Htodo, Hval.
  unfold cancel_or_keep.
  destruct (String.eqb action "cancel");
    unfold bind, modify_db, ret; rewrite Hdb; reflexivity.
Qed.
End ReceiptRuns.

Section DeliveryRuns.
Variables (w : World) (s : Store) (rec : Delivery.t) (reference : string).
Hypothesis Hdb : db w = Some s.
Hypothesis Hrec :
  find_one (by_delivery_reference reference) (delivery s) = Some rec.

Lemma delivery_validate_run :
  get (Delivery.status rec) "Draft" = "Ready" ->
  delivery_action reference "validate" w
  = (Ok (Response.mk reference "Done"),
     mkWorld
       (Some (mkStore
          (apply_stock (fun line => - Line.quantity line)
                       (get (Delivery.lines rec) []) (product s))
          (receipt s)
          (update_one (by_delivery_reference reference)
                      (Delivery.set_status "Done") (delivery s))
          (move s ++ moves_of (delivery_move reference rec) (clock w)
                              (ticks w) (get (Delivery.lines rec) []))))
       (clock w)
       (ticks w + List.length (get (Delivery.lines rec) []))).
Proof.
  intros Hst. unfold delivery_action.
  unfold bind at 1. unfold the_db at 1. rewrite Hdb, Hrec, Hst.
  cbn [String.eqb Ascii.eqb Bool.eqb andb].
  unfold bind at 1. unfold bind at 1. unfold bind at 1.
  rewrite (stock_loop_run (fun line => - Line.quantity line) _ w s Hdb).
  erewrite (move_loop_run (delivery_move reference rec)) by reflexivity.
  unfold ret at 1. unfold bind, modify_db, ret. simpl. reflexivity.
Qed.

Lemma delivery_todo_run :
  get (Delivery.status rec) "Draft" = "Draft" ->
  delivery_action reference "todo" w
  = (Ok (Response.mk reference
           (match short_lines s rec with [] => "Ready" | _ :: _ => "Waiting" end)),
     mkWorld
       (Some (persist_status IsDelivery reference
          (match short_lines s rec with [] => "Ready" | _ :: _ => "Waiting" end) s))
       (clock w) (ticks w)).
Proof.
  intros Hst. unfold delivery_action.
  unfold bind at 1. unfold the_db at 1. rewrite Hdb, Hrec, Hst.
  cbn [String.eqb Ascii.eqb Bool.eqb andb].
  unfold bind at 1. unfold bind at 1.
  rewrite (check_loop_run _ w s [] Hdb). cbn [app].
  fold (short_lines s rec).
  unfold ret at 1. unfold bind, modify_db, ret. rewrite Hdb. reflexivity.
Qed.

Lemma delivery_other_run (action : string) :
  String.eqb action "todo" && String.eqb (get (Delivery.status rec) "Draft")
                                         "Draft" = false ->
  String.eqb action "validate" && String.eqb (get (Delivery.status rec) "Draft")
                                             "Ready" = false ->
  delivery_action reference action w
  = (Ok (Response.mk reference
           (cancel_or_keep action (get (Delivery.status rec) "Draft"))),
     mkWorld
       (Some (persist_status IsDelivery reference
                (cancel_or_keep action (get (Delivery.status rec) "Draft")) s))
       (clock w) (ticks w)).
Proof.
  intros Htodo Hval. unfold delivery_action.
  unfold bind at 1. unfold the_db at 1. rewrite Hdb, Hrec, Htodo, Hval.
  unfold cancel_or_keep.
  destruct (String.eqb action "cancel");
    unfold bind, modify_db, ret; rewrite Hdb; reflexivity.
Qed.
End DeliveryRuns.


Lemma receipt_move_logs (reference : string) (rec : Receipt.t)
    (date : datetime) (line : Line.t) :
  logs reference "in" line (receipt_move reference rec date line).
Proof. repeat split. Qed.

Lemma delivery_move_logs (reference : string) (rec : Delivery.t)
    (date : datetime) (line : Line.t) :
  logs reference "out" line (delivery_move reference rec date line).
Proof. repeat split. Qed.

Lemma find_receipt_persisted (reference status : string)
    (col : list Receipt.t) :
  find_one (by_receipt_reference reference)
           (update_one (by_receipt_reference reference)
                       (Receipt.set_status status) col)
  = option_map (Receipt.set_status status)
               (find_one (by_receipt_reference reference) col).
Proof. apply find_one_update_one. reflexivity. Qed.

Lemma find_delivery_persisted (reference status : string)
    (col : list Delivery.t) :
  find_one (by_delivery_reference reference)
           (update_one (by_delivery_reference reference)
                       (Delivery.set_status status) col)
  = option_map (Delivery.set_status status)
               (find_one (by_delivery_reference reference) col).
Proof. apply find_one_update_one. reflexivity. Qed.

(** ** What [validate] leaves alone *)





Lemma find_delivery_other (reference other status : string)
    (col : list Delivery.t) :
  other <> reference ->
  find_one (by_delivery_reference other)
           (update_one (by_delivery_reference reference)
                       (Delivery.set_status status) col)
  = find_one (by_delivery_reference other) col.
Proof.
  intros Hne. apply find_one_update_one_other; [reflexivity|].
  intros d Hd. unfold by_delivery_reference in *.
  apply String.eqb_eq in Hd. apply String.eqb_neq. congruence.
Qed.

(** ** The lifecycle engine: validation *)





(** ** Facts on the operation view *)

Lemma persist_status_product t reference status s :
  product (persist_status t reference status s) = product s.
Proof. now destruct t. Qed.

Lemma persist_status_move t reference status s :
  move (persist_status t reference status s) = move s.
Proof. now destruct t. Qed.

Lemma current_status_persist t reference status s st :
  current_status t s reference = Some st ->
  current_status t (persist_status t reference status s) reference
  = Some status.
Proof.
  destruct t; simpl.
  - rewrite find_receipt_persisted.
    destruct (find_one _ (receipt s)); [reflexivity | discriminate].
  - rewrite find_delivery_persisted.
    destruct (find_one _ (delivery s)); [reflexivity | discriminate].
Qed.

(** Writing back the status a document already holds changes nothing. *)
Lemma persist_status_same t reference s st :
  match t with
  | IsReceipt =>
      option_map Receipt.status
                 (find_one (by_receipt_reference reference) (receipt s))
  | IsDelivery =>
      option_map Delivery.status
                 (find_one (by_delivery_reference reference) (delivery s))
  end = Some (Some st) ->
  persist_status t reference st s = s.
Proof.
  destruct t; simpl.
  - destruct (find_one _ (receipt s)) as [rec|] eqn:E; [|discriminate].
    intros [= Hst]. rewrite (update_one_fixed _ _ _ rec E).
    + now destruct s.
    + destruct rec; simpl in *. now subst.
  - destruct (find_one _ (delivery s)) as [rec|] eqn:E; [|discriminate].
    intros [= Hst]. rewrite (update_one_fixed _ _ _ rec E).
    + now destruct s.
    + destruct rec; simpl in *. now subst.
Qed.

(** Every action that is neither an applicable [todo] nor an applicable
    [validate] only writes a status: Canceled for [cancel], the current one
    otherwise. *)
Lemma operation_other_run (t : OperationType) (w : World) (s : Store)
    (reference action st : string) :
  db w = Some s ->
  current_status t s reference = Some st ->
  String.eqb action "todo" && String.eqb st "Draft" = false ->
  String.eqb action "validate" && String.eqb st "Ready" = false ->
  operation_action t reference action w
  = (Ok (Response.mk reference (cancel_or_keep action st)),
     mkWorld (Some (persist_status t reference (cancel_or_keep action st) s))
             (clock w) (ticks w)).
Proof.
  intros Hdb Hst Htodo Hval. destruct t; simpl in *.
  - destruct (find_one _ (receipt s)) as [rec|] eqn:E; [|discriminate].
    injection Hst as Hst. subst st.
    now apply receipt_other_run.
  - destruct (find_one _ (delivery s)) as [rec|] eqn:E; [|discriminate].
    injection Hst as Hst. subst st.
    now apply delivery_other_run.
Qed.

(** C4.  [validate] on an operation (receipt or delivery) that is already
    Done answers Done without an error, leaves the whole product collection
    (hence every on_hand and free_to_use) as it was, and appends no move;
    the status stays Done. *)
Theorem validate_done_applies_nothing (t : OperationType) (w : World)
    (s : Store) (reference : string) :
  db w = Some s ->
  current_status t s reference = Some "Done" ->
  exists s',
    operation_action t reference "validate" w
    = (Ok (Response.mk reference "Done"),
       mkWorld (Some s') (clock w) (ticks w)) /\
    product s' = product s /\
    move s' = move s /\
    current_status t s' reference = Some "Done".
Proof.
  intros Hdb Hst.
  eexists. split.
  - apply (operation_other_run t w s reference "validate" "Done" Hdb Hst);
      reflexivity.
  - cbn [cancel_or_keep String.eqb Ascii.eqb Bool.eqb].
    split; [apply persist_status_product|].
    split; [apply persist_status_move|].
    now apply current_status_persist with (st := "Done").
Qed.

Lemma validate_done_applies_nothing_witness :
  (exists s',
      receipt_action "WH/IN/0003" "validate" demo_world
      = (Ok (Response.mk "WH/IN/0003" "Done"), mkWorld (Some s') (clock demo_world) 0) /\
      product s' = product demo_store /\ move s' = move demo_store) /\
  (exists s',
      delivery_action "WH/OUT/0005" "validate" demo_world
      = (Ok (Response.mk "WH/OUT/0005" "Done"), mkWorld (Some s') (clock demo_world) 0) /\
      product s' = product demo_store /\ move s' = move demo_store).
Proof.
  split.
  - destruct (validate_done_applies_nothing IsReceipt demo_world demo_store
                "WH/IN/0003" eq_refl eq_refl) as (s' & Hrun & Hp & Hm & _).
    exists s'. auto.
  - destruct (validate_done_applies_nothing IsDelivery demo_world demo_store
                "WH/OUT/0005" eq_refl eq_refl) as (s' & Hrun & Hp & Hm & _).
    exists s'. auto.
Defined.

(** ** The lifecycle engine: transitions that only write a status *)

(** A run of the engine on a receipt that is Done: [cancel] takes it to
    Canceled. *)
Example cancel_after_done :
  current_status IsReceipt demo_store "WH/IN/0003" = Some "Done" /\
  result (receipt_action "WH/IN/0003" "cancel") demo_world
  = Ok (Response.mk "WH/IN/0003" "Canceled") /\
  current_status IsReceipt
    (store_of (exec (receipt_action "WH/IN/0003" "cancel") demo_world))
    "WH/IN/0003" = Some "Canceled".
Proof. repeat split. Qed.

(** C5, as claimed, fails: it is not the case that no action changes the
    status of an operation that is Done or Canceled.  On the receipt
    WH/IN/0003 of the demo store, which is Done, [cancel] stores
    Canceled. *)
Lemma done_is_left_by_cancel :
  ~ (forall (t : OperationType) (w : World) (s s' : Store)
            (reference action st : string),
        db w = Some s ->
        current_status t s reference = Some st ->
        st = "Done" \/ st = "Canceled" ->
        db (exec (operation_action t reference action) w) = Some s' ->
        current_status t s' reference = Some st).
Proof.
  intros claim.
  specialize (claim IsReceipt demo_world demo_store _ "WH/IN/0003" "cancel"
                    "Done" eq_refl eq_refl (or_introl eq_refl) eq_refl).
  vm_compute in claim. discriminate claim.
Qed.

(** C5, amended.  Canceled is terminal: no action changes the status of an
    operation (receipt or delivery) that is Canceled.  An operation that is
    Done keeps its status under every action other than [cancel], and
    [cancel] takes it to Canceled.  In all these cases the action answers
    the resulting status, changes no product and appends no move. *)
Theorem terminal_statuses (t : OperationType) (w : World) (s : Store)
    (reference action st : string) :
  db w = Some s ->
  current_status t s reference = Some st ->
  st = "Done" \/ st = "Canceled" ->
  exists s' st',
    operation_action t reference action w
    = (Ok (Response.mk reference st'), mkWorld (Some s') (clock w) (ticks w)) /\
    current_status t s' reference = Some st' /\
    product s' = product s /\
    move s' = move s /\
    (st = "Canceled" -> st' = "Canceled") /\
    (action <> "cancel" -> st' = st) /\
    (action = "cancel" -> st' = "Canceled").
Proof.
  intros Hdb Hst Hterm.
  exists (persist_status t reference (cancel_or_keep action st) s),
         (cancel_or_keep action st).
  split.
  - apply operation_other_run; try assumption.
    + destruct Hterm as [-> | ->]; apply andb_false_r.
    + destruct Hterm as [-> | ->]; apply andb_false_r.
  - split; [now apply current_status_persist with (st := st)|].
    split; [apply persist_status_product|].
    split; [apply persist_status_move|].
    unfold cancel_or_keep.
    destruct (String.eqb action "cancel") eqn:E.
    + repeat split; trivial. intros Hne.
      apply String.eqb_eq in E. contradiction.
    + repeat split; trivial. intros ->. discriminate E.
Qed.

Lemma terminal_statuses_witness :
  exists s',
    delivery_action "WH/OUT/0005" "todo" demo_world
    = (Ok (Response.mk "WH/OUT/0005" "Done"),
       mkWorld (Some s') (clock demo_world) 0) /\
    current_status IsDelivery s' "WH/OUT/0005" = Some "Done".
Proof.
  destruct (terminal_statuses IsDelivery demo_world demo_store "WH/OUT/0005"
              "todo" "Done" eq_refl eq_refl (or_introl eq_refl))
    as (s' & st' & Hrun & Hst & _ & _ & _ & Hkeep & _).
  rewrite Hkeep in Hrun, Hst by discriminate.
  exists s'. auto.
Defined.

(** C6.  On an existing operation, an unknown action name, [todo] on a
    status other than Draft, or [validate] on a status other than Ready, is
    a no-op: the handler raises nothing, answers the current status, and
    its only write stores that same status again; no product changes and no
    move is appended.  Where the stored document carries its status, the
    store after the action is the store before it. *)
Theorem inapplicable_action_is_noop (t : OperationType) (w : World)
    (s : Store) (reference action st : string) :
  db w = Some s ->
  current_status t s reference = Some st ->
  (action <> "todo" /\ action <> "validate" /\ action <> "cancel") \/
  (action = "todo" /\ st <> "Draft") \/
  (action = "validate" /\ st <> "Ready") ->
  exists s',
    operation_action t reference action w
    = (Ok (Response.mk reference st), mkWorld (Some s') (clock w) (ticks w)) /\
    s' = persist_status t reference st s /\
    current_status t s' reference = Some st /\
    product s' = product s /\
    move s' = move s /\
    (match t with
     | IsReceipt =>
         option_map Receipt.status
           (find_one (by_receipt_reference reference) (receipt s))
     | IsDelivery =>
         option_map Delivery.status
           (find_one (by_delivery_reference reference) (delivery s))
     end = Some (Some st) ->
     s' = s).
Proof.
  intros Hdb Hst Hcase.
  assert (Hkeep : cancel_or_keep action st = st).
  { unfold cancel_or_keep.
    destruct Hcase as [(_ & _ & Hc) | [(-> & _) | (-> & _)]];
      [|reflexivity|reflexivity].
    apply String.eqb_neq in Hc. now rewrite Hc. }
  exists (persist_status t reference st s).
  split.
  - rewrite <- Hkeep at 1 2. apply operation_other_run; try assumption.
    + destruct Hcase as [(Ht & _ & _) | [(_ & Hd) | (-> & _)]].
      * apply String.eqb_neq in Ht. now rewrite Ht.
      * apply String.eqb_neq in Hd. rewrite Hd. apply andb_false_r.
      * reflexivity.
    + destruct Hcase as [(_ & Hv & _) | [(-> & _) | (_ & Hr)]].
      * apply String.eqb_neq in Hv. now rewrite Hv.
      * reflexivity.
      * apply String.eqb_neq in Hr. rewrite Hr. apply andb_false_r.
  - split; [reflexivity|].
    split; [now apply current_status_persist with (st := st)|].
    split; [apply persist_status_product|].
    split; [apply persist_status_move|].
    apply persist_status_same.
Qed.

Lemma inapplicable_action_is_noop_witness :
  (exists s',
      receipt_action "WH/IN/0001" "approve" demo_world
      = (Ok (Response.mk "WH/IN/0001" "Ready"),
         mkWorld (Some s') (clock demo_world) 0) /\
      product s' = product demo_store /\ move s' = move demo_store) /\
  (exists s',
      delivery_action "WH/OUT/0001" "validate" demo_world
      = (Ok (Response.mk "WH/OUT/0001" "Waiting"),
         mkWorld (Some s') (clock demo_world) 0) /\
      product s' = product demo_store /\ move s' = move demo_store).
Proof.
  split.
  - destruct (inapplicable_action_is_noop IsReceipt demo_world demo_store
                "WH/IN/0001" "approve" "Ready" eq_refl eq_refl)
      as (s' & Hrun & _ & _ & Hp & Hm & _).
    + left. repeat split; discriminate.
    + exists s'. auto.
  - destruct (inapplicable_action_is_noop IsDelivery demo_world demo_store
                "WH/OUT/0001" "validate" "Waiting" eq_refl eq_refl)
      as (s' & Hrun & _ & _ & Hp & Hm & _).
    + right. right. split; [reflexivity | discriminate].
    + exists s'. auto.
Defined.

(** C7.  For an operation (receipt or delivery) in a non-terminal status,
    that is one that is neither Done nor Canceled, [cancel] answers and
    stores Canceled, changes no product and appends no move. *)
Theorem cancel_non_terminal (t : OperationType) (w : World) (s : Store)
    (reference st : string) :
  db w = Some s ->
  current_status t s reference = Some st ->
  st <> "Done" ->
  st <> "Canceled" ->
  exists s',
    operation_action t reference "cancel" w
    = (Ok (Response.mk reference "Canceled"),
       mkWorld (Some s') (clock w) (ticks w)) /\
    current_status t s' reference = Some "Canceled" /\
    product s' = product s /\
    move s' = move s.
Proof.
  intros Hdb Hst _ _.
  exists (persist_status t reference "Canceled" s).
  split.
  - apply (operation_other_run t w s reference "cancel" st Hdb Hst);
      reflexivity.
  - split; [now apply current_status_persist with (st := st)|].
    split; [apply persist_status_product | apply persist_status_move].
Qed.

Lemma cancel_non_terminal_witness :
  exists s',
    delivery_action "WH/OUT/0001" "cancel" demo_world
    = (Ok (Response.mk "WH/OUT/0001" "Canceled"),
       mkWorld (Some s') (clock demo_world) 0) /\
    current_status IsDelivery s' "WH/OUT/0001" = Some "Canceled" /\
    product s' = product demo_store /\
    move s' = move demo_store.
Proof.
  apply (cancel_non_terminal IsDelivery demo_world demo_store "WH/OUT/0001"
           "Waiting" eq_refl eq_refl); discriminate.
Defined.

(** ** Reference allocation *)

Lemma decimal_parse (n : nat) :
  NilEmpty.uint_of_string (decimal n) = Some (Nat.to_uint n).
Proof.
  unfold decimal.
  assert (Hnn : Nat.to_uint n <> Nil).
  { intros Hnil.
    pose proof (Unsigned.of_to n) as Hof. rewrite Hnil in Hof.
    simpl in Hof. subst n. discriminate Hnil. }
  pose proof (NilZero.usu _ Hnn) as Husu.
  destruct (Nat.to_uint n) eqn:E; try (now elim Hnn); exact Husu.
Qed.

Lemma zeros_parse (k : nat) (s : string) (d : uint) :
  NilEmpty.uint_of_string s = Some d ->
  exists d', NilEmpty.uint_of_string (zeros k ++ s) = Some d' /\
             Nat.of_uint d' = Nat.of_uint d.
Proof.
  intros Hs. induction k as [|k (d' & Hd' & Hof)]; simpl.
  - exists d. auto.
  - exists (D0 d'). rewrite Hd'. split; [reflexivity | exact Hof].
Qed.

Lemma format_04d_parse (n : nat) : parse_count (format_04d n) = Some n.
Proof.
  unfold parse_count, format_04d.
  destruct (zeros_parse (4 - String.length (decimal n)) _ _ (decimal_parse n))
    as (d' & Hd' & Hof).
  assert (Hz : NilZero.uint_of_string
                 (zeros (4 - String.length (decimal n)) ++ decimal n)
               = Some d').
  { destruct (zeros (4 - String.length (decimal n)) ++ decimal n) eqn:E.
    - simpl in Hd'. injection Hd' as <-.
      exfalso. revert Hof. rewrite Unsigned.of_to.
      intros Hof. simpl in Hof. subst n.
      destruct (4 - String.length (decimal 0))%nat; discriminate E.
    - exact Hd'. }
  rewrite Hz. simpl. now rewrite Hof, Unsigned.of_to.
Qed.

Lemma format_04d_width :
  forallb (fun n => Nat.eqb (String.length (format_04d n)) 4) (seq 0 (100 * 100))
  = true.
Proof. vm_compute. reflexivity. Qed.

Lemma format_04d_below_10000 (n : nat) :
  (n < 100 * 100)%nat -> String.length (format_04d n) = 4%nat.
Proof.
  intros Hn. pose proof format_04d_width as Hall.
  rewrite forallb_forall in Hall.
  apply Nat.eqb_eq, Hall, in_seq. lia.
Qed.

Lemma validate_lines_ok (ls : list Line.t) (w : World) :
  forallb (fun l => 0 <=? Line.quantity l) ls = true ->
  validate_lines ls w = (Ok ls, w).
Proof. unfold validate_lines. now intros ->. Qed.

Lemma date_or_now_ok (x : option datetime) (w : World) :
  exists d t, date_or_now x w = (Ok d, mkWorld (db w) (clock w) t).
Proof.
  destruct x as [d|]; simpl.
  - exists d, (ticks w). unfold ret. now rewrite world_eta.
  - eexists _, _. reflexivity.
Qed.

(** C9.  On creation the reference of an operation is its type's prefix
    followed by the count of the operations of that type already stored,
    plus one, written in decimal and left-padded with zeros to four
    characters: the numeral reads back as that count plus one and, below
    10000, is exactly four characters wide.  The first receipt created is
    WH/IN/0001 and the second WH/IN/0002; deliveries follow the same
    pattern with WH/OUT/.  The created operation is appended to its
    collection in status Draft. *)
Theorem created_reference (w : World) (s : Store)
    (receipt_payload : ReceiptCreate.t) (delivery_payload : DeliveryCreate.t) :
  db w = Some s ->
  forallb (fun l => 0 <=? Line.quantity l)
          (ReceiptCreate.lines receipt_payload) = true ->
  forallb (fun l => 0 <=? Line.quantity l)
          (DeliveryCreate.lines delivery_payload) = true ->
  (exists rec t,
      create_receipt receipt_payload w
      = (Ok rec,
         mkWorld (Some (set_receipt (receipt s ++ [rec]) s)) (clock w) t) /\
      Receipt.status rec = Some "Draft" /\
      Receipt.reference rec
      = "WH/IN/" ++ format_04d (List.length (receipt s) + 1) /\
      (receipt s = [] -> Receipt.reference rec = "WH/IN/0001") /\
      (List.length (receipt s) = 1%nat ->
       Receipt.reference rec = "WH/IN/0002")) /\
  (exists doc t,
      create_delivery delivery_payload w
      = (Ok doc,
         mkWorld (Some (set_delivery (delivery s ++ [doc]) s)) (clock w) t) /\
      Delivery.status doc = Some "Draft" /\
      Delivery.reference doc
      = "WH/OUT/" ++ format_04d (List.length (delivery s) + 1) /\
      (delivery s = [] -> Delivery.reference doc = "WH/OUT/0001") /\
      (List.length (delivery s) = 1%nat ->
       Delivery.reference doc = "WH/OUT/0002")) /\
  (forall n : nat,
      parse_count (format_04d n) = Some n /\
      (exists k, format_04d n = zeros k ++ decimal n) /\
      ((n < 100 * 100)%nat -> String.length (format_04d n) = 4%nat)).
Proof.
  intros Hdb Hrl Hdl. split; [|split].
  - destruct (date_or_now_ok (ReceiptCreate.schedule_date receipt_payload) w)
      as (d & t & Hd).
    eexists _, t. split.
    + unfold create_receipt. rewrite Hdb.
      unfold bind at 1. unfold the_db at 1. rewrite Hdb.
      unfold bind at 1. rewrite Hd.
      unfold bind at 1. rewrite (validate_lines_ok _ _ Hrl).
      unfold bind, modify_db, ret, create_document. simpl. rewrite Hdb.
      reflexivity.
    + cbn [Receipt.status Receipt.reference]. unfold count_documents.
      split; [reflexivity|]. split; [reflexivity|].
      split; intros H; rewrite H; reflexivity.
  - destruct (date_or_now_ok (DeliveryCreate.schedule_date delivery_payload) w)
      as (d & t & Hd).
    eexists _, t. split.
    + unfold create_delivery. rewrite Hdb.
      unfold bind at 1. unfold the_db at 1. rewrite Hdb.
      unfold bind at 1. rewrite Hd.
      unfold bind at 1. rewrite (validate_lines_ok _ _ Hdl).
      unfold bind, modify_db, ret, create_document. simpl. rewrite Hdb.
      reflexivity.
    + cbn [Delivery.status Delivery.reference]. unfold count_documents.
      split; [reflexivity|]. split; [reflexivity|].
      split; intros H; rewrite H; reflexivity.
  - intros n. split; [apply format_04d_parse|]. split.
    + eexists. reflexivity.
    + apply format_04d_below_10000.
Qed.

Lemma created_reference_witness :
  exists rec w',
    create_receipt (ReceiptCreate.mk None None None None [line "DESK001" 5])
                   demo_world = (Ok rec, w') /\
    Receipt.reference rec = "WH/IN/0005".
Proof.
  destruct (created_reference demo_world demo_store
              (ReceiptCreate.mk None None None None [line "DESK001" 5])
              (DeliveryCreate.mk None None None [])
              eq_refl eq_refl eq_refl)
    as ((rec & t & Hrun & _ & Href & _) & _).
  exists rec. eexists. split; [exact Hrun | exact Href].
Defined.

(** The first two receipts and the first two deliveries created on a store
    that holds no operation yet. *)
Example first_references :
  let w1 := exec (create_receipt (ReceiptCreate.mk None None None None []))
                 world0 in
  let w2 := exec (create_delivery (DeliveryCreate.mk None None None [])) w1 in
  let w3 := exec (create_receipt (ReceiptCreate.mk None None None None []))
                 w2 in
  let w4 := exec (create_delivery (DeliveryCreate.mk None None None [])) w3 in
  map Receipt.reference (receipt (store_of w4)) = ["WH/IN/0001"; "WH/IN/0002"]
  /\ map Delivery.reference (delivery (store_of w4))
     = ["WH/OUT/0001"; "WH/OUT/0002"].
Proof. split; reflexivity. Qed.

(** ** The lifecycle engine: the stock check of a delivery *)

Lemma filter_none {A : Type} (P : A -> bool) (xs : list A) :
  (forall x, In x xs -> P x = false) -> filter P xs = [].
Proof.
  induction xs as [|x rest IH]; intros Hall; simpl; [reflexivity|].
  rewrite (Hall x (or_introl eq_refl)). apply IH.
  intros y Hy. apply Hall. now right.
Qed.

Lemma filter_some {A : Type} (P : A -> bool) (xs : list A) (x : A) :
  In x xs -> P x = true -> exists y rest, filter P xs = y :: rest.
Proof.
  intros Hin HP.
  destruct (filter P xs) as [|y rest] eqn:E; [|now exists y, rest].
  assert (Hx : In x (filter P xs)) by (apply filter_In; auto).
  rewrite E in Hx. contradiction.
Qed.

(** C3.  For a delivery whose current status is Draft, [todo] answers and
    stores Ready when the product of every line has free_to_use greater
    than or equal to the quantity of the line, and Waiting when the product
    of at least one line has less; in both cases the status is the only
    field of the delivery that changes, and the product collection, the
    move ledger, the receipts and the deliveries under other references
    are left as they were. *)
Theorem delivery_todo_draft (w : World) (s : Store) (rec : Delivery.t)
    (reference : string) :
  db w = Some s ->
  find_one (by_delivery_reference reference) (delivery s) = Some rec ->
  get (Delivery.status rec) "Draft" = "Draft" ->
  exists s' st',
    delivery_action reference "todo" w
    = (Ok (Response.mk reference st'), mkWorld (Some s') (clock w) (ticks w)) /\
    find_one (by_delivery_reference reference) (delivery s')
    = Some (Delivery.mk (Delivery.reference rec) (Delivery.from_location rec)
                        (Delivery.to_location rec) (Delivery.contact rec)
                        (Delivery.schedule_date rec) (Some st')
                        (Delivery.responsible rec)
                        (Delivery.operation_type rec) (Delivery.lines rec)) /\
    current_status IsDelivery s' reference = Some st' /\
    (forall other,
        other <> reference ->
        find_one (by_delivery_reference other) (delivery s')
        = find_one (by_delivery_reference other) (delivery s)) /\
    product s' = product s /\
    move s' = move s /\
    receipt s' = receipt s /\
    ((forall l, In l (get (Delivery.lines rec) []) ->
        exists p,
          find_one (by_sku (Line.product_sku l)) (product s) = Some p /\
          Line.quantity l <= get (Product.free_to_use p) 0) ->
     st' = "Ready") /\
    ((exists l p,
        In l (get (Delivery.lines rec) []) /\
        find_one (by_sku (Line.product_sku l)) (product s) = Some p /\
        get (Product.free_to_use p) 0 < Line.quantity l) ->
     st' = "Waiting").
Proof.
  intros Hdb Hrec Hst.
  eexists _, _. split; [apply (delivery_todo_run w s rec); assumption|].
  unfold short_lines.
  cbn [current_status persist_status product delivery move receipt
       set_delivery].
  split; [now rewrite find_delivery_persisted, Hrec|].
  split; [now rewrite find_delivery_persisted, Hrec|].
  split; [intros other Hne; now apply find_delivery_other|].
  do 3 (split; [reflexivity|]).
  split.
  - intros Hall. rewrite filter_none; [reflexivity|].
    intros l Hl. destruct (Hall l Hl) as (p & -> & Hq).
    simpl. lia.
  - intros (l & p & Hl & Hp & Hq).
    destruct (filter_some
                (fun line =>
                   is_insufficient
                     (find_one (by_sku (Line.product_sku line)) (product s))
                     line)
                _ l Hl) as (y & rest & ->); [|reflexivity].
    rewrite Hp. simpl. lia.
Qed.

Lemma delivery_todo_draft_witness :
  (exists s',
      delivery_action "WH/OUT/0004" "todo" demo_world
      = (Ok (Response.mk "WH/OUT/0004" "Ready"),
         mkWorld (Some s') (clock demo_world) 0) /\
      option_map Delivery.status
        (find_one (by_delivery_reference "WH/OUT/0004") (delivery s'))
      = Some (Some "Ready")) /\
  (exists s',
      delivery_action "WH/OUT/0003" "todo" demo_world
      = (Ok (Response.mk "WH/OUT/0003" "Waiting"),
         mkWorld (Some s') (clock demo_world) 0) /\
      option_map Delivery.status
        (find_one (by_delivery_reference "WH/OUT/0003") (delivery s'))
      = Some (Some "Waiting")).
Proof.
  split.
  - destruct (delivery_todo_draft demo_world demo_store
                (demo_delivery "WH/OUT/0004" "Draft" [line "TABLE001" 10])
                "WH/OUT/0004" eq_refl eq_refl eq_refl)
      as (s' & st' & Hrun & Hstored & _ & _ & _ & _ & _ & Hready & _).
    rewrite Hready in Hrun, Hstored.
    + exists s'. split; [exact Hrun|]. rewrite Hstored. reflexivity.
    + intros l [<- | []]. exists table. split; [reflexivity | simpl; lia].
    + intros l [<- | []]. exists table. split; [reflexivity | simpl; lia].
  - destruct (delivery_todo_draft demo_world demo_store
                (demo_delivery "WH/OUT/0003" "Draft" [line "DESK001" 50])
                "WH/OUT/0003" eq_refl eq_refl eq_refl)
      as (s' & st' & Hrun & Hstored & _ & _ & _ & _ & _ & _ & Hwait).
    rewrite Hwait in Hrun, Hstored.
    + exists s'. split; [exact Hrun|]. rewrite Hstored. reflexivity.
    + exists (line "DESK001" 50), desk.
      split; [now left | split; [reflexivity | simpl; lia]].
    + exists (line "DESK001" 50), desk.
      split; [now left | split; [reflexivity | simpl; lia]].
Defined.

(** C10.  For a delivery whose current status is Draft, if some line names
    a sku under which no product is stored, [todo] answers and stores
    Waiting, never Ready; the status is the only field of the delivery
    that changes, no product changes and no move is appended. *)
Theorem delivery_todo_missing_product (w : World) (s : Store)
    (rec : Delivery.t) (reference : string) (l : Line.t) :
  db w = Some s ->
  find_one (by_delivery_reference reference) (delivery s) = Some rec ->
  get (Delivery.status rec) "Draft" = "Draft" ->
  In l (get (Delivery.lines rec) []) ->
  find_one (by_sku (Line.product_sku l)) (product s) = None ->
  exists s',
    delivery_action reference "todo" w
    = (Ok (Response.mk reference "Waiting"),
       mkWorld (Some s') (clock w) (ticks w)) /\
    find_one (by_delivery_reference reference) (delivery s')
    = Some (Delivery.mk (Delivery.reference rec) (Delivery.from_location rec)
                        (Delivery.to_location rec) (Delivery.contact rec)
                        (Delivery.schedule_date rec) (Some "Waiting")
                        (Delivery.responsible rec)
                        (Delivery.operation_type rec) (Delivery.lines rec)) /\
    current_status IsDelivery s' reference = Some "Waiting" /\
    current_status IsDelivery s' reference <> Some "Ready" /\
    product s' = product s /\
    move s' = move s.
Proof.
  intros Hdb Hrec Hst Hl Hnone.
  pose proof (delivery_todo_run w s rec reference Hdb Hrec Hst) as Hrun.
  unfold short_lines in Hrun.
  destruct (filter_some
              (fun line =>
                 is_insufficient
                   (find_one (by_sku (Line.product_sku line)) (product s))
                   line)
              _ l Hl) as (y & rest & Hshort); [now rewrite Hnone|].
  rewrite Hshort in Hrun.
  eexists. split; [exact Hrun|].
  cbn [current_status persist_status product delivery move set_delivery].
  rewrite find_delivery_persisted, Hrec.
  split; [reflexivity|]. split; [reflexivity|].
  split; [discriminate|].
  split; reflexivity.
Qed.

Lemma delivery_todo_missing_product_witness :
  exists s',
    delivery_action "WH/OUT/0006" "todo" demo_world
    = (Ok (Response.mk "WH/OUT/0006" "Waiting"),
       mkWorld (Some s') (clock demo_world) 0) /\
    option_map Delivery.status
      (find_one (by_delivery_reference "WH/OUT/0006") (delivery s'))
    = Some (Some "Waiting").
Proof.
  destruct (delivery_todo_missing_product demo_world demo_store
              (demo_delivery "WH/OUT/0006" "Draft"
                             [line "TABLE001" 1; line "GHOST" 0])
              "WH/OUT/0006" (line "GHOST" 0)
              eq_refl eq_refl eq_refl (or_intror (or_introl eq_refl)) eq_refl)
    as (s' & Hrun & Hstored & _).
  exists s'. split; [exact Hrun|]. rewrite Hstored. reflexivity.
Defined.

(** ** The lifecycle engine: lines without a product *)

Lemma moves_of_length mk clock (lines : list Line.t) :
  forall t, List.length (moves_of mk clock t lines) = List.length lines.
Proof.
  induction lines as [|l rest IH]; intros t; simpl; [reflexivity|].
  now rewrite IH.
Qed.

Lemma moves_of_app mk clock (l1 l2 : list Line.t) :
  forall t,
    moves_of mk clock t (l1 ++ l2)
    = (moves_of mk clock t l1
       ++ moves_of mk clock (t + List.length l1) l2)%list.
Proof.
  induction l1 as [|l rest IH]; intros t; simpl.
  - now rewrite Nat.add_0_r.
  - now rewrite IH, Nat.add_succ_r.
Qed.

Lemma nth_error_logged (ledger : list Move.t) mk clock t
    (before after : list Line.t) (l : Line.t) :
  nth_error (ledger ++ moves_of mk clock t (before ++ l :: after))
            (List.length ledger + List.length before)
  = Some (mk (clock (t + List.length before)%nat) l).
Proof.
  rewrite nth_error_app2 by lia.
  replace (List.length ledger + List.length before - List.length ledger)%nat
    with (List.length before) by lia.
  rewrite moves_of_app, nth_error_app2 by (rewrite moves_of_length; lia).
  rewrite moves_of_length, Nat.sub_diag. reflexivity.
Qed.

Lemma apply_stock_skip (delta : Line.t -> Z) (before after : list Line.t)
    (l : Line.t) (col : list Product.t) :
  find_one (by_sku (Line.product_sku l)) col = None ->
  apply_stock delta (before ++ l :: after) col
  = apply_stock delta (before ++ after) col.
Proof.
  intros Hnone. rewrite !apply_stock_app. simpl.
  rewrite update_one_no_match; [reflexivity|].
  now apply find_one_apply_stock_none.
Qed.

(** The run of an applicable [validate], for either type of operation. *)
Lemma operation_validate_run (t : OperationType) (w : World) (s : Store)
    (reference : string) (lines : list Line.t) :
  db w = Some s ->
  current_status t s reference = Some "Ready" ->
  operation_lines t s reference = Some lines ->
  exists mk,
    (forall date l, logs reference (direction_of t) l (mk date l)) /\
    operation_action t reference "validate" w
    = (Ok (Response.mk reference "Done"),
       mkWorld
         (Some (persist_status t reference "Done"
            (set_move (move s ++ moves_of mk (clock w) (ticks w) lines)
               (set_product (apply_stock (stock_delta t) lines (product s))
                            s))))
         (clock w) (ticks w + List.length lines)).
Proof.
  intros Hdb Hst Hlines. destruct t; simpl in *.
  - destruct (find_one _ (receipt s)) as [rec|] eqn:E; [|discriminate].
    injection Hst as Hst. injection Hlines as <-.
    exists (receipt_move reference rec).
    split; [intros; apply receipt_move_logs|].
    now rewrite (receipt_validate_run w s rec reference Hdb E Hst).
  - destruct (find_one _ (delivery s)) as [rec|] eqn:E; [|discriminate].
    injection Hst as Hst. injection Hlines as <-.
    exists (delivery_move reference rec).
    split; [intros; apply delivery_move_logs|].
    now rewrite (delivery_validate_run w s rec reference Hdb E Hst).
Qed.

(** C8.  When [validate] applies to an operation (receipt or delivery) that
    has a line whose sku names no stored product, the handler raises
    nothing and answers Done; the product collection comes out as if the
    operation did not have that line, the sku still names no product, and
    the move of that line is appended all the same, at the line's position,
    with the line's sku and quantity. *)
Theorem validate_skips_missing_product (t : OperationType) (w : World)
    (s : Store) (reference : string) (before after : list Line.t)
    (l : Line.t) :
  db w = Some s ->
  current_status t s reference = Some "Ready" ->
  operation_lines t s reference = Some (before ++ l :: after)%list ->
  find_one (by_sku (Line.product_sku l)) (product s) = None ->
  exists s' w' mv,
    operation_action t reference "validate" w
    = (Ok (Response.mk reference "Done"), w') /\
    db w' = Some s' /\
    product s'
    = apply_stock (stock_delta t) (before ++ after) (product s) /\
    find_one (by_sku (Line.product_sku l)) (product s') = None /\
    List.length (move s')
    = (List.length (move s) + List.length (before ++ l :: after))%nat /\
    nth_error (move s') (List.length (move s) + List.length before) = Some mv /\
    logs reference (direction_of t) l mv.
Proof.
  intros Hdb Hst Hlines Hnone.
  destruct (operation_validate_run t w s reference _ Hdb Hst Hlines)
    as (mk & Hmk & Hrun).
  eexists _, _, _. split; [exact Hrun|].
  split; [reflexivity|].
  rewrite persist_status_product, persist_status_move.
  cbn [product move set_move set_product].
  split; [now apply apply_stock_skip|].
  split; [now apply find_one_apply_stock_none|].
  split; [now rewrite length_app, moves_of_length|].
  split; [apply nth_error_logged | apply Hmk].
Qed.

Lemma validate_skips_missing_product_witness :
  exists w',
    receipt_action "WH/IN/0001" "validate" demo_world
    = (Ok (Response.mk "WH/IN/0001" "Done"), w') /\
    option_map product (db w')
    = Some (apply_stock Line.quantity [line "DESK001" 5] (product demo_store)).
Proof.
  destruct (validate_skips_missing_product IsReceipt demo_world demo_store
              "WH/IN/0001" [line "DESK001" 5] [] (line "GHOST" 2)
              eq_refl eq_refl eq_refl eq_refl)
    as (s' & w' & mv & Hrun & Hdb & Hprod & _).
  exists w'. split; [exact Hrun|].
  rewrite Hdb. simpl. now rewrite Hprod.
Defined.

(** The same run computed: the desks are received, the line of the unknown
    sku changes no product and is logged nevertheless. *)
Example receipt_with_unknown_sku :
  let w' := exec (receipt_action "WH/IN/0001" "validate") demo_world in
  product (store_of w')
  = [Product.mk "DESK001" "Desk" (Some 55) (Some 50); table] /\
  map (fun mv => (Move.product_sku mv, Move.quantity mv, Move.direction mv))
      (move (store_of w'))
  = [("DESK001", 5, "in"); ("GHOST", 2, "in")].
Proof. split; reflexivity. Qed.

(** The scenarios of the seed data: a receipt of five desks, and a delivery
    asking for more desks than are free to use. *)
Example scenario_receipt :
  let w1 := exec (create_receipt
                    (ReceiptCreate.mk None None None None [line "DESK001" 5]))
                 world0 in
  let w2 := exec (receipt_action "WH/IN/0001" "todo") w1 in
  let w3 := exec (receipt_action "WH/IN/0001" "validate") w2 in
  result (receipt_action "WH/IN/0001" "todo") w1
  = Ok (Response.mk "WH/IN/0001" "Ready") /\
  result (receipt_action "WH/IN/0001" "validate") w2
  = Ok (Response.mk "WH/IN/0001" "Done") /\
  product (store_of w3)
  = [Product.mk "DESK001" "Desk" (Some 55) (Some 50); table] /\
  map (fun mv => (Move.product_sku mv, Move.quantity mv, Move.direction mv))
      (move (store_of w3))
  = [("DESK001", 5, "in")].
Proof. repeat split. Qed.

Example scenario_delivery :
  let w1 := exec (create_delivery
                    (DeliveryCreate.mk None None None [line "DESK001" 50]))
                 world0 in
  result (delivery_action "WH/OUT/0001" "todo") w1
  = Ok (Response.mk "WH/OUT/0001" "Waiting").
Proof. reflexivity. Qed.

(** ** The handlers as a transition system *)

Lemma store_untouched (s : Store) :
  set_move (move s ++ []) (set_product (product s) s) = s.
Proof. rewrite app_nil_r. now destruct s. Qed.

Lemma short_lines_in_stock (s : Store) (rec : Delivery.t) :
  match short_lines s rec with [] => "Ready" | _ :: _ => "Waiting" end
  = if in_stock s (get (Delivery.lines rec) []) then "Ready" else "Waiting".
Proof.
  unfold short_lines, in_stock.
  induction (get (Delivery.lines rec) []) as [|l rest IH]; simpl;
    [reflexivity|].
  destruct (is_insufficient _ l); simpl; [reflexivity | exact IH].
Qed.

(** Every action on a known reference, in one equation: the answer is the
    status of the transition table, the stock loop and the logging loop
    run over the applied lines, and the status is written last. *)
Lemma operation_run_found (t : OperationType) (w : World) (s : Store)
    (reference action st : string) (lines : list Line.t) :
  db w = Some s ->
  current_status t s reference = Some st ->
  operation_lines t s reference = Some lines ->
  exists mk,
    (forall date l, logs reference (direction_of t) l (mk date l)) /\
    operation_action t reference action w
    = (Ok (Response.mk reference (next_status t action st (in_stock s lines))),
       mkWorld
         (Some (persist_status t reference
            (next_status t action st (in_stock s lines))
            (set_move
               (move s ++ moves_of mk (clock w) (ticks w)
                                   (applied_lines action st lines))
               (set_product
                  (apply_stock (stock_delta t)
                               (applied_lines action st lines) (product s))
                  s))))
         (clock w)
         (ticks w + List.length (applied_lines action st lines))).
Proof.
  intros Hdb Hst Hlines.
  unfold next_status, applied_lines.
  destruct (String.eqb action "validate" && String.eqb st "Ready") eqn:Hval.
  - apply andb_true_iff in Hval. destruct Hval as (Ha & Hr).
    apply String.eqb_eq in Ha, Hr. subst action st.
    cbn [String.eqb Ascii.eqb Bool.eqb andb].
    now apply operation_validate_run.
  - assert (Hmk : exists mk : datetime -> Line.t -> Move.t,
               forall date l, logs reference (direction_of t) l (mk date l)).
    { destruct t.
      - exists (receipt_move reference
                  (Receipt.mk "" None None None None None None None)).
        intros. apply receipt_move_logs.
      - exists (delivery_move reference
                  (Delivery.mk "" None None None None None None "" None)).
        intros. apply delivery_move_logs. }
    destruct Hmk as (mk & Hmk). exists mk. split; [exact Hmk|].
    cbn [moves_of apply_stock List.length].
    rewrite store_untouched, Nat.add_0_r.
    destruct (String.eqb action "todo" && String.eqb st "Draft") eqn:Htodo.
    + apply andb_true_iff in Htodo. destruct Htodo as (Ha & Hd).
      apply String.eqb_eq in Ha, Hd. subst action st.
      destruct t; simpl in Hst, Hlines |- *.
      * destruct (find_one _ (receipt s)) as [rec|] eqn:E; [|discriminate].
        injection Hst as Hst.
        now rewrite (receipt_todo_run w s rec reference Hdb E Hst).
      * destruct (find_one _ (delivery s)) as [rec|] eqn:E; [|discriminate].
        injection Hst as Hst. injection Hlines as <-.
        rewrite (delivery_todo_run w s rec reference Hdb E Hst).
        now rewrite short_lines_in_stock.
    + rewrite (operation_other_run t w s reference action st Hdb Hst Htodo
                                    Hval).
      reflexivity.
Qed.

(** A known reference has lines to read. *)
Lemma operation_lines_known (t : OperationType) (s : Store)
    (reference st : string) :
  current_status t s reference = Some st ->
  exists lines, operation_lines t s reference = Some lines.
Proof.
  destruct t; simpl.
  - destruct (find_one _ (receipt s)); [eexists; reflexivity | discriminate].
  - destruct (find_one _ (delivery s)); [eexists; reflexivity | discriminate].
Qed.

Lemma operation_run_unknown (t : OperationType) (w : World) (s : Store)
    (reference action : string) :
  db w = Some s ->
  current_status t s reference = None ->
  operation_action t reference action w = (HTTPException 404 "Not found", w).
Proof.
  intros Hdb Hst. destruct t; simpl in *.
  - destruct (find_one _ (receipt s)) eqn:E; [discriminate|].
    unfold receipt_action, bind, the_db. now rewrite Hdb, E.
  - destruct (find_one _ (delivery s)) eqn:E; [discriminate|].
    unfold delivery_action, bind, the_db. now rewrite Hdb, E.
Qed.

(** ** What no action does *)

Lemma update_one_receipt_refs (reference status : string)
    (col : list Receipt.t) :
  map Receipt.reference
      (update_one (by_receipt_reference reference)
                  (Receipt.set_status status) col)
  = map Receipt.reference col.
Proof.
  induction col as [|d rest IH]; simpl; [reflexivity|].
  destruct (by_receipt_reference reference d); simpl;
    [reflexivity | now rewrite IH].
Qed.

Lemma update_one_delivery_refs (reference status : string)
    (col : list Delivery.t) :
  map Delivery.reference
      (update_one (by_delivery_reference reference)
                  (Delivery.set_status status) col)
  = map Delivery.reference col.
Proof.
  induction col as [|d rest IH]; simpl; [reflexivity|].
  destruct (by_delivery_reference reference d); simpl;
    [reflexivity | now rewrite IH].
Qed.

Lemma persist_status_receipt_refs t reference status s :
  map Receipt.reference (receipt (persist_status t reference status s))
  = map Receipt.reference (receipt s).
Proof. destruct t; simpl; [apply update_one_receipt_refs | reflexivity]. Qed.

Lemma persist_status_delivery_refs t reference status s :
  map Delivery.reference (delivery (persist_status t reference status s))
  = map Delivery.reference (delivery s).
Proof. destruct t; simpl; [reflexivity | apply update_one_delivery_refs]. Qed.

Lemma same_reserve_refl (p : Product.t) : same_reserve p p.
Proof. repeat split. Qed.

Lemma same_reserve_inc (d : Z) (p : Product.t) :
  same_reserve p (inc_stock d p).
Proof. repeat split. simpl. lia. Qed.

Lemma same_reserve_trans (p q r : Product.t) :
  same_reserve p q -> same_reserve q r -> same_reserve p r.
Proof.
  intros (Hs1 & Hn1 & Hd1) (Hs2 & Hn2 & Hd2).
  repeat split; congruence.
Qed.

Lemma Forall2_same_reserve_refl (col : list Product.t) :
  Forall2 same_reserve col col.
Proof.
  induction col; constructor; [apply same_reserve_refl | assumption].
Qed.

Lemma Forall2_same_reserve_trans (a b c : list Product.t) :
  Forall2 same_reserve a b -> Forall2 same_reserve b c ->
  Forall2 same_reserve a c.
Proof.
  intros Hab. revert c.
  induction Hab as [|p q a b Hpq Hab IH]; intros c Hbc.
  - inversion Hbc. constructor.
  - inversion Hbc as [|q' r b' c' Hqr Hbc' E1 E2]; subst.
    constructor; [eapply same_reserve_trans; eassumption | now apply IH].
Qed.

Lemma update_one_same_reserve (k : string) (d : Z) (col : list Product.t) :
  Forall2 same_reserve col (update_one (by_sku k) (inc_stock d) col).
Proof.
  induction col as [|p rest IH]; simpl; [constructor|].
  destruct (by_sku k p).
  - constructor; [apply same_reserve_inc | apply Forall2_same_reserve_refl].
  - constructor; [apply same_reserve_refl | exact IH].
Qed.

Lemma apply_stock_same_reserve (delta : Line.t -> Z) (lines : list Line.t) :
  forall col, Forall2 same_reserve col (apply_stock delta lines col).
Proof.
  induction lines as [|l rest IH]; intros col; simpl.
  - apply Forall2_same_reserve_refl.
  - eapply Forall2_same_reserve_trans;
      [apply update_one_same_reserve | apply IH].
Qed.

Lemma same_reserve_not_overcommitted (col col' : list Product.t) :
  Forall2 same_reserve col col' ->
  Forall not_overcommitted col -> Forall not_overcommitted col'.
Proof.
  induction 1 as [|p q a b (_ & _ & Hd) Hab IH]; intros Hall.
  - constructor.
  - inversion Hall as [|p' a' Hp Ha]; subst.
    constructor; [|now apply IH].
    unfold not_overcommitted in *. lia.
Qed.

Lemma same_reserve_names (col col' : list Product.t) :
  Forall2 same_reserve col col' ->
  map Product.name col' = map Product.name col.
Proof.
  induction 1 as [|p q a b (_ & Hn & _) _ IH]; simpl;
    [reflexivity | now rewrite Hn, IH].
Qed.

(** The store an action leaves behind, whatever the action and whether or
    not the reference is known. *)
Lemma operation_run_store (t : OperationType) (w : World) (s : Store)
    (reference action : string) :
  db w = Some s ->
  exists status logged lines,
    db (exec (operation_action t reference action) w)
    = Some (persist_status t reference status
              (set_move (move s ++ logged)
                 (set_product (apply_stock (stock_delta t) lines (product s))
                              s))) \/
    exec (operation_action t reference action) w = w.
Proof.
  intros Hdb.
  destruct (current_status t s reference) as [st|] eqn:Hst.
  - destruct (operation_lines_known t s reference st Hst) as (lines & Hl).
    destruct (operation_run_found t w s reference action st lines Hdb Hst Hl)
      as (mk & _ & Hrun).
    eexists _, _, _. left. unfold exec. rewrite Hrun. reflexivity.
  - exists "", [], []. right. unfold exec.
    now rewrite (operation_run_unknown t w s reference action Hdb Hst).
Qed.

(** X1.  Whatever the action, the status and the reference, a handler never
    removes or rewrites a logged move (the ledger before is a prefix of the
    ledger after), never adds, removes or renames a product, and never
    adds, removes or renames a receipt or a delivery. *)
Theorem action_keeps_documents (t : OperationType) (w : World) (s : Store)
    (reference action : string) :
  db w = Some s ->
  exists s' logged,
    db (exec (operation_action t reference action) w) = Some s' /\
    move s' = (move s ++ logged)%list /\
    map Product.sku (product s') = map Product.sku (product s) /\
    map Product.name (product s') = map Product.name (product s) /\
    map Receipt.reference (receipt s') = map Receipt.reference (receipt s) /\
    map Delivery.reference (delivery s')
    = map Delivery.reference (delivery s).
Proof.
  intros Hdb.
  destruct (operation_run_store t w s reference action Hdb)
    as (status & logged & lines & [Hrun | Hrun]).
  - eexists _, logged. split; [exact Hrun|].
    rewrite persist_status_move, persist_status_product,
      persist_status_receipt_refs, persist_status_delivery_refs.
    cbn [move product receipt delivery set_move set_product].
    split; [reflexivity|].
    split; [|split; [|split; reflexivity]].
    + apply apply_stock_skus.
    + apply same_reserve_names, apply_stock_same_reserve.
  - exists s, []. rewrite Hrun, app_nil_r. repeat split; assumption.
Qed.

Lemma action_keeps_documents_witness :
  exists s' logged,
    db (exec (receipt_action "WH/IN/0001" "validate") demo_world) = Some s' /\
    move s' = (move demo_store ++ logged)%list.
Proof.
  destruct (action_keeps_documents IsReceipt demo_world demo_store
              "WH/IN/0001" "validate" eq_refl)
    as (s' & logged & Hdb & Hmove & _).
  exists s', logged. auto.
Defined.

(** X2.  Whatever the action, the status and the reference, a handler
    leaves every product with the same quantity held back (on_hand minus
    free_to_use); so if no product had more free to use than on hand
    before the action, none has after it. *)
Theorem action_keeps_reserve (t : OperationType) (w : World) (s : Store)
    (reference action : string) :
  db w = Some s ->
  exists s',
    db (exec (operation_action t reference action) w) = Some s' /\
    Forall2 same_reserve (product s) (product s') /\
    (Forall not_overcommitted (product s) ->
     Forall not_overcommitted (product s')).
Proof.
  intros Hdb.
  assert (Hres : exists s',
             db (exec (operation_action t reference action) w) = Some s' /\
             Forall2 same_reserve (product s) (product s')).
  { destruct (operation_run_store t w s reference action Hdb)
      as (status & logged & lines & [Hrun | Hrun]).
    - eexists. split; [exact Hrun|].
      rewrite persist_status_product. cbn [product set_move set_product].
      apply apply_stock_same_reserve.
    - exists s. rewrite Hrun. split; [exact Hdb|].
      apply Forall2_same_reserve_refl. }
  destruct Hres as (s' & Hs' & Hres).
  exists s'. split; [exact Hs'|]. split; [exact Hres|].
  now apply same_reserve_not_overcommitted.
Qed.

Lemma action_keeps_reserve_witness :
  exists s',
    db (exec (delivery_action "WH/OUT/0002" "validate") demo_world) = Some s' /\
    Forall not_overcommitted (product s').
Proof.
  destruct (action_keeps_reserve IsDelivery demo_world demo_store
              "WH/OUT/0002" "validate" eq_refl)
    as (s' & Hdb & _ & Hkeep).
  exists s'. split; [exact Hdb|]. apply Hkeep.
  repeat constructor; unfold not_overcommitted; simpl; lia.
Defined.

(** ** The transition table *)


Lemma current_status_frame (t : OperationType) (s : Store)
    (reference : string) (ledger : list Move.t) (col : list Product.t) :
  current_status t (set_move ledger (set_product col s)) reference
  = current_status t s reference.
Proof. now destruct t. Qed.



(** X4.  On a reference under which no operation is stored, the action
    handler and the read handler of the operation type raise 404 "Not found"
    whatever the action, and leave the store and the clock as they
    were. *)
Theorem unknown_reference_is_not_found (t : OperationType) (w : World)
    (s : Store) (reference action : string) :
  db w = Some s ->
  current_status t s reference = None ->
  operation_action t reference action w = (HTTPException 404 "Not found", w) /\
  match t with
  | IsReceipt =>
      get_receipt reference w = (HTTPException 404 "Not found", w)
  | IsDelivery =>
      get_delivery reference w = (HTTPException 404 "Not found", w)
  end.
Proof.
  intros Hdb Hst. split.
  - destruct t; simpl in *.
    + destruct (find_one _ (receipt s)) eqn:E; [discriminate|].
      unfold receipt_action, bind, the_db. now rewrite Hdb, E.
    + destruct (find_one _ (delivery s)) eqn:E; [discriminate|].
      unfold delivery_action, bind, the_db. now rewrite Hdb, E.
  - destruct t; simpl in *.
    + destruct (find_one _ (receipt s)) eqn:E; [discriminate|].
      unfold get_receipt, bind, the_db. now rewrite Hdb, E.
    + destruct (find_one _ (delivery s)) eqn:E; [discriminate|].
      unfold get_delivery, bind, the_db. now rewrite Hdb, E.
Qed.

Lemma unknown_reference_is_not_found_witness :
  receipt_action "WH/IN/0042" "validate" demo_world
  = (HTTPException 404 "Not found", demo_world) /\
  get_receipt "WH/IN/0042" demo_world
  = (HTTPException 404 "Not found", demo_world).
Proof.
  exact (unknown_reference_is_not_found IsReceipt demo_world demo_store
           "WH/IN/0042" "validate" eq_refl eq_refl).
Defined.

(** X5.  Only [validate] on a Ready operation touches the stock, the ledger
    or the clock: every other pair of action and current status leaves the
    product collection and the move ledger as they were and reads no
    time. *)
Theorem only_validate_ready_has_effects (t : OperationType) (w : World)
    (s : Store) (reference action st : string) :
  db w = Some s ->
  current_status t s reference = Some st ->
  ~ (action = "validate" /\ st = "Ready") ->
  exists w' s',
    exec (operation_action t reference action) w = w' /\
    db w' = Some s' /\
    product s' = product s /\
    move s' = move s /\
    ticks w' = ticks w.
Proof.
  intros Hdb Hst Hnot.
  destruct (operation_lines_known t s reference st Hst) as (lines & Hl).
  destruct (operation_run_found t w s reference action st lines Hdb Hst Hl)
    as (mk & _ & Hrun).
  assert (Hnone : applied_lines action st lines = []).
  { unfold applied_lines.
    destruct (String.eqb action "validate" && String.eqb st "Ready") eqn:E;
      [|reflexivity].
    apply andb_true_iff in E. destruct E as (Ha & Hr).
    apply String.eqb_eq in Ha, Hr. now elim Hnot. }
  rewrite Hnone in Hrun. cbn [moves_of apply_stock List.length] in Hrun.
  rewrite store_untouched, Nat.add_0_r in Hrun.
  eexists _, _. unfold exec. rewrite Hrun. cbn [snd db ticks].
  split; [reflexivity|]. split; [reflexivity|].
  split; [apply persist_status_product|].
  split; [apply persist_status_move | reflexivity].
Qed.

Lemma only_validate_ready_has_effects_witness :
  exists w' s',
    exec (receipt_action "WH/IN/0002" "validate") demo_world = w' /\
    db w' = Some s' /\
    product s' = product demo_store /\
    move s' = move demo_store /\
    ticks w' = ticks demo_world.
Proof.
  apply (only_validate_ready_has_effects IsReceipt demo_world demo_store
           "WH/IN/0002" "validate" "Draft" eq_refl eq_refl).
  intros (_ & H). discriminate H.
Defined.

(** X6.  An operation that is Waiting or Canceled stays Waiting or Canceled
    under every sequence of actions sent for its reference, and none of
    them changes a product or appends a move: a delivery that [todo] found
    short of stock can be canceled but never becomes Ready or Done. *)
Theorem waiting_is_never_released (t : OperationType) (reference : string)
    (actions : list string) :
  forall (w : World) (s : Store) (st : string),
    db w = Some s ->
    current_status t s reference = Some st ->
    st = "Waiting" \/ st = "Canceled" ->
    exists s' st',
      db (run_actions t reference actions w) = Some s' /\
      current_status t s' reference = Some st' /\
      (st' = "Waiting" \/ st' = "Canceled") /\
      product s' = product s /\
      move s' = move s.
Proof.
  induction actions as [|action rest IH]; intros w s st Hdb Hst Hcase; simpl.
  - exists s, st. auto.
  - assert (Hrun : exec (operation_action t reference action) w
                   = mkWorld (Some (persist_status t reference
                                      (cancel_or_keep action st) s))
                             (clock w) (ticks w)).
    { unfold exec. rewrite (operation_other_run t w s reference action st);
        try assumption; try reflexivity;
        destruct Hcase as [-> | ->]; apply andb_false_r. }
    rewrite Hrun.
    destruct (IH (mkWorld (Some (persist_status t reference
                                   (cancel_or_keep action st) s))
                          (clock w) (ticks w))
                 (persist_status t reference (cancel_or_keep action st) s)
                 (cancel_or_keep action st) eq_refl)
      as (s' & st' & Hdb' & Hst' & Hcase' & Hp & Hm).
    + now apply current_status_persist with (st := st).
    + unfold cancel_or_keep. destruct (String.eqb action "cancel"); auto.
    + exists s', st'. rewrite Hp, Hm, persist_status_product,
        persist_status_move. auto.
Qed.

Lemma waiting_is_never_released_witness :
  exists s' st',
    db (run_actions IsDelivery "WH/OUT/0001" ["todo"; "validate"; "todo"]
                    demo_world) = Some s' /\
    current_status IsDelivery s' "WH/OUT/0001" = Some st' /\
    (st' = "Waiting" \/ st' = "Canceled") /\
    product s' = product demo_store /\
    move s' = move demo_store.
Proof.
  apply (waiting_is_never_released IsDelivery "WH/OUT/0001"
           ["todo"; "validate"; "todo"] demo_world demo_store "Waiting"
           eq_refl eq_refl).
  now left.
Defined.

(** X7.  Validating twice applies once: after [validate] on a Ready
    operation, a second [validate] for the same reference answers Done and
    leaves the whole world (store and clock) exactly as the first left
    it. *)
Theorem validate_twice_applies_once (t : OperationType) (w : World)
    (s : Store) (reference : string) :
  db w = Some s ->
  current_status t s reference = Some "Ready" ->
  operation_action t reference "validate"
                   (exec (operation_action t reference "validate") w)
  = (Ok (Response.mk reference "Done"),
     exec (operation_action t reference "validate") w).
Proof.
  intros Hdb Hst.
  destruct (operation_lines_known t s reference _ Hst) as (lines & Hl).
  destruct (operation_validate_run t w s reference lines Hdb Hst Hl)
    as (mk & _ & Hrun).
  unfold exec. rewrite Hrun. cbn [snd].
  set (s0 := set_move _ _) in *.
  assert (Hdone : current_status t (persist_status t reference "Done" s0)
                                 reference = Some "Done").
  { apply current_status_persist with (st := "Ready").
    subst s0. now rewrite current_status_frame. }
  erewrite operation_other_run; [| reflexivity | exact Hdone | reflexivity
                                 | reflexivity].
  cbn [cancel_or_keep String.eqb Ascii.eqb Bool.eqb db clock ticks].
  rewrite (persist_status_same t reference
             (persist_status t reference "Done" s0) "Done"); [reflexivity|].
  destruct t; simpl in Hst |- *.
  - rewrite find_receipt_persisted. subst s0. cbn [receipt set_move set_product].
    destruct (find_one _ (receipt s)); [reflexivity | discriminate].
  - rewrite find_delivery_persisted. subst s0.
    cbn [delivery set_move set_product].
    destruct (find_one _ (delivery s)); [reflexivity | discriminate].
Qed.

Lemma validate_twice_applies_once_witness :
  receipt_action "WH/IN/0001" "validate"
                 (exec (receipt_action "WH/IN/0001" "validate") demo_world)
  = (Ok (Response.mk "WH/IN/0001" "Done"),
     exec (receipt_action "WH/IN/0001" "validate") demo_world).
Proof.
  exact (validate_twice_applies_once IsReceipt demo_world demo_store
           "WH/IN/0001" eq_refl eq_refl).
Defined.

(** ** Creation and the numbering of references *)

Lemma append_inj_l (p a b : string) : p ++ a = p ++ b -> a = b.
Proof.
  induction p as [|c p IH]; simpl; [trivial|].
  intros [= H]. now apply IH.
Qed.

Lemma format_04d_inj (n m : nat) : format_04d n = format_04d m -> n = m.
Proof.
  intros H. pose proof (format_04d_parse n) as Hn.
  rewrite H, format_04d_parse in Hn. now injection Hn.
Qed.

Lemma numbered_nil (prefix : string) : numbered prefix [].
Proof. intros [|i] r H; discriminate H. Qed.

Lemma numbered_at (prefix : string) (refs : list string) (i : nat)
    (r : string) :
  numbered prefix refs -> nth_error refs i = Some r ->
  (i < List.length refs)%nat /\ r = prefix ++ format_04d (i + 1).
Proof.
  intros Hnum Hi. split; [|now apply Hnum].
  apply nth_error_Some. congruence.
Qed.

Lemma numbered_NoDup (prefix : string) (refs : list string) :
  numbered prefix refs -> NoDup refs.
Proof.
  intros Hnum. apply NoDup_nth_error. intros i j Hi Hij.
  destruct (nth_error refs i) as [r|] eqn:Ei;
    [|apply nth_error_Some in Hi; congruence].
  symmetry in Hij.
  apply (numbered_at prefix) in Ei; [|assumption].
  apply (numbered_at prefix) in Hij; [|assumption].
  destruct Ei as (_ & Hr), Hij as (_ & Hr').
  rewrite Hr in Hr'. apply append_inj_l, format_04d_inj in Hr'. lia.
Qed.

Lemma numbered_fresh (prefix : string) (refs : list string) :
  numbered prefix refs ->
  ~ In (prefix ++ format_04d (List.length refs + 1)) refs.
Proof.
  intros Hnum Hin. apply In_nth_error in Hin. destruct Hin as (i & Hi).
  apply (numbered_at prefix) in Hi; [|assumption].
  destruct Hi as (Hlt & Hr).
  apply append_inj_l, format_04d_inj in Hr. lia.
Qed.

Lemma numbered_next (prefix : string) (refs : list string) :
  numbered prefix refs ->
  numbered prefix (refs ++ [prefix ++ format_04d (List.length refs + 1)]).
Proof.
  intros Hnum i r Hi.
  destruct (Nat.lt_ge_cases i (List.length refs)) as [Hlt | Hge].
  - rewrite nth_error_app1 in Hi by exact Hlt. now apply Hnum.
  - rewrite nth_error_app2 in Hi by exact Hge.
    destruct (i - List.length refs)%nat as [|k] eqn:E; simpl in Hi.
    + injection Hi as <-. replace i with (List.length refs) by lia.
      reflexivity.
    + destruct k; discriminate Hi.
Qed.

Lemma find_one_last {D : Type} (filt : D -> bool) (col : list D) (doc : D) :
  (forall d, In d col -> filt d = false) ->
  filt doc = true ->
  find_one filt (col ++ [doc]) = Some doc.
Proof.
  intros Hnone Hdoc. unfold find_one.
  induction col as [|d rest IH]; simpl.
  - now rewrite Hdoc.
  - rewrite (Hnone d (or_introl eq_refl)). apply IH.
    intros x Hx. apply Hnone. now right.
Qed.

Lemma find_one_kept {D : Type} (filt : D -> bool) (col : list D) (doc d : D) :
  find_one filt col = Some d -> find_one filt (col ++ [doc]) = Some d.
Proof.
  unfold find_one. induction col as [|x rest IH]; simpl; [discriminate|].
  destruct (filt x); [trivial | exact IH].
Qed.

(** The run of a creation on a configured store, valid lines or not. *)
Lemma create_receipt_run (payload : ReceiptCreate.t) (w : World) (s : Store) :
  db w = Some s ->
  exists d t,
    create_receipt payload w
    = if forallb (fun l => 0 <=? Line.quantity l)
                 (ReceiptCreate.lines payload)
      then (Ok (new_receipt s payload d),
            mkWorld (Some (set_receipt
                             (receipt s ++ [new_receipt s payload d]) s))
                    (clock w) t)
      else (Uncaught "ValidationError", mkWorld (Some s) (clock w) t).
Proof.
  intros Hdb.
  destruct (date_or_now_ok (ReceiptCreate.schedule_date payload) w)
    as (d & t & Hd).
  exists d, t. unfold create_receipt. rewrite Hdb.
  unfold bind at 1. unfold the_db at 1. rewrite Hdb.
  unfold bind at 1. rewrite Hd.
  unfold bind at 1. unfold validate_lines.
  destruct (forallb _ (ReceiptCreate.lines payload)).
  - unfold bind, modify_db, ret, create_document. simpl. rewrite Hdb.
    reflexivity.
  - unfold throw. now rewrite Hdb.
Qed.

Lemma create_delivery_run (payload : DeliveryCreate.t) (w : World)
    (s : Store) :
  db w = Some s ->
  exists d t,
    create_delivery payload w
    = if forallb (fun l => 0 <=? Line.quantity l)
                 (DeliveryCreate.lines payload)
      then (Ok (new_delivery s payload d),
            mkWorld (Some (set_delivery
                             (delivery s ++ [new_delivery s payload d]) s))
                    (clock w) t)
      else (Uncaught "ValidationError", mkWorld (Some s) (clock w) t).
Proof.
  intros Hdb.
  destruct (date_or_now_ok (DeliveryCreate.schedule_date payload) w)
    as (d & t & Hd).
  exists d, t. unfold create_delivery. rewrite Hdb.
  unfold bind at 1. unfold the_db at 1. rewrite Hdb.
  unfold bind at 1. rewrite Hd.
  unfold bind at 1. unfold validate_lines.
  destruct (forallb _ (DeliveryCreate.lines payload)).
  - unfold bind, modify_db, ret, create_document. simpl. rewrite Hdb.
    reflexivity.
  - unfold throw. now rewrite Hdb.
Qed.

Lemma numbered_store_after_receipt (s : Store) (payload : ReceiptCreate.t)
    (d : datetime) :
  numbered_store s ->
  numbered_store (set_receipt (receipt s ++ [new_receipt s payload d]) s).
Proof.
  intros (Hr & Hd). split; [|exact Hd].
  cbn [receipt set_receipt]. rewrite map_app. cbn [map new_receipt
    Receipt.reference]. unfold count_documents.
  rewrite <- (length_map Receipt.reference (receipt s)).
  now apply numbered_next.
Qed.

Lemma numbered_store_after_delivery (s : Store) (payload : DeliveryCreate.t)
    (d : datetime) :
  numbered_store s ->
  numbered_store (set_delivery (delivery s ++ [new_delivery s payload d]) s).
Proof.
  intros (Hr & Hd). split; [exact Hr|].
  cbn [delivery set_delivery]. rewrite map_app. cbn [map new_delivery
    Delivery.reference]. unfold count_documents.
  rewrite <- (length_map Delivery.reference (delivery s)).
  now apply numbered_next.
Qed.

(** X8.  Numbering in creation order (the i-th receipt is WH/IN/ followed
    by i on four digits, the i-th delivery WH/OUT/ followed by i) is an
    invariant of the store: it holds of a store without operations, and
    creating a receipt, creating a delivery (accepted or rejected) and any
    action of either handler keep it. *)
Theorem numbering_is_kept (w : World) (s : Store) :
  db w = Some s ->
  numbered_store s ->
  (forall payload, exists s',
      db (exec (create_receipt payload) w) = Some s' /\ numbered_store s') /\
  (forall payload, exists s',
      db (exec (create_delivery payload) w) = Some s' /\ numbered_store s') /\
  (forall t reference action, exists s',
      db (exec (operation_action t reference action) w) = Some s' /\
      numbered_store s') /\
  (forall products ledger, numbered_store (mkStore products [] [] ledger)).
Proof.
  intros Hdb Hnum. split; [|split; [|split]].
  - intros payload.
    destruct (create_receipt_run payload w s Hdb) as (d & t & Hrun).
    unfold exec. rewrite Hrun. destruct (forallb _ _); cbn [snd db].
    + eexists. split; [reflexivity|]. now apply numbered_store_after_receipt.
    + exists s. auto.
  - intros payload.
    destruct (create_delivery_run payload w s Hdb) as (d & t & Hrun).
    unfold exec. rewrite Hrun. destruct (forallb _ _); cbn [snd db].
    + eexists. split; [reflexivity|]. now apply numbered_store_after_delivery.
    + exists s. auto.
  - intros t reference action.
    destruct (operation_run_store t w s reference action Hdb)
      as (status & logged & lines & [Hrun | Hrun]).
    + eexists. split; [exact Hrun|].
      unfold numbered_store.
      rewrite persist_status_receipt_refs, persist_status_delivery_refs.
      exact Hnum.
    + exists s. rewrite Hrun. auto.
  - intros products ledger. split; apply numbered_nil.
Qed.

Lemma numbering_is_kept_witness :
  exists s',
    db (exec (create_receipt
                (ReceiptCreate.mk None None None None [line "DESK001" 5]))
             world0) = Some s' /\
    numbered_store s'.
Proof.
  assert (Hnum : numbered_store empty_store) by (split; apply numbered_nil).
  destruct (numbering_is_kept world0 empty_store eq_refl Hnum) as (Hc & _).
  apply Hc.
Defined.

(** X9.  In a store numbered in creation order no two receipts and no two
    deliveries share a reference, and the reference the next creation
    allocates is carried by no stored operation of its type. *)
Theorem numbered_references_are_distinct (s : Store) :
  numbered_store s ->
  NoDup (map Receipt.reference (receipt s)) /\
  NoDup (map Delivery.reference (delivery s)) /\
  ~ In ("WH/IN/" ++ format_04d (count_documents (receipt s) + 1))
       (map Receipt.reference (receipt s)) /\
  ~ In ("WH/OUT/" ++ format_04d (count_documents (delivery s) + 1))
       (map Delivery.reference (delivery s)).
Proof.
  intros (Hr & Hd). unfold count_documents.
  rewrite <- (length_map Receipt.reference (receipt s)).
  rewrite <- (length_map Delivery.reference (delivery s)).
  repeat split.
  - now apply numbered_NoDup with (prefix := "WH/IN/").
  - now apply numbered_NoDup with (prefix := "WH/OUT/").
  - now apply numbered_fresh.
  - now apply numbered_fresh.
Qed.

Lemma numbered_references_are_distinct_witness :
  NoDup ["WH/IN/0001"; "WH/IN/0002"; "WH/IN/0003"; "WH/IN/0004"] /\
  NoDup (map Delivery.reference (delivery demo_store)) /\
  ~ In "WH/IN/0005" (map Receipt.reference (receipt demo_store)) /\
  ~ In "WH/OUT/0007" (map Delivery.reference (delivery demo_store)).
Proof.
  apply (numbered_references_are_distinct demo_store).
  split; intros i r H;
    do 7 (destruct i as [|i];
          [first [injection H as <-; reflexivity | discriminate H]|]);
    destruct i; discriminate H.
Defined.

Lemma fresh_reference_matches_none {D : Type} (ref_of : D -> string)
    (col : list D) (r : string) :
  ~ In r (map ref_of col) ->
  forall d, In d col -> String.eqb (ref_of d) r = false.
Proof.
  intros Hfresh d Hd. apply String.eqb_neq. intros <-.
  apply Hfresh, in_map, Hd.
Qed.

Lemma find_new_receipt (s : Store) (payload : ReceiptCreate.t)
    (d : datetime) :
  numbered_store s ->
  find_one (by_receipt_reference
              (Receipt.reference (new_receipt s payload d)))
           (receipt s ++ [new_receipt s payload d])
  = Some (new_receipt s payload d).
Proof.
  intros (Hr & _). apply find_one_last.
  - apply (fresh_reference_matches_none Receipt.reference).
    cbn [new_receipt Receipt.reference]. unfold count_documents.
    rewrite <- (length_map Receipt.reference (receipt s)).
    now apply numbered_fresh.
  - apply String.eqb_refl.
Qed.

Lemma find_new_delivery (s : Store) (payload : DeliveryCreate.t)
    (d : datetime) :
  numbered_store s ->
  find_one (by_delivery_reference
              (Delivery.reference (new_delivery s payload d)))
           (delivery s ++ [new_delivery s payload d])
  = Some (new_delivery s payload d).
Proof.
  intros (_ & Hd). apply find_one_last.
  - apply (fresh_reference_matches_none Delivery.reference).
    cbn [new_delivery Delivery.reference]. unfold count_documents.
    rewrite <- (length_map Delivery.reference (delivery s)).
    now apply numbered_fresh.
  - apply String.eqb_refl.
Qed.

Lemma get_receipt_run (w : World) (s : Store) (reference : string)
    (rec : Receipt.t) :
  db w = Some s ->
  find_one (by_receipt_reference reference) (receipt s) = Some rec ->
  get_receipt reference w = (Ok rec, w).
Proof.
  intros Hdb Hrec. unfold get_receipt, bind, the_db. now rewrite Hdb, Hrec.
Qed.

Lemma get_delivery_run (w : World) (s : Store) (reference : string)
    (rec : Delivery.t) :
  db w = Some s ->
  find_one (by_delivery_reference reference) (delivery s) = Some rec ->
  get_delivery reference w = (Ok rec, w).
Proof.
  intros Hdb Hrec. unfold get_delivery, bind, the_db. now rewrite Hdb, Hrec.
Qed.

Lemma find_one_none {D : Type} (filt : D -> bool) (col : list D) :
  (forall d, In d col -> filt d = false) -> find_one filt col = None.
Proof.
  unfold find_one. induction col as [|x rest IH]; intros Hnone; simpl;
    [reflexivity|].
  rewrite (Hnone x (or_introl eq_refl)). apply IH.
  intros d Hd. apply Hnone. now right.
Qed.

Lemma demo_store_numbered : numbered_store demo_store.
Proof.
  split; intros i r H;
    do 7 (destruct i as [|i];
          [first [injection H as <-; reflexivity | discriminate H]|]);
    destruct i; discriminate H.
Qed.

(** X10.  In a store numbered in creation order, the reference a creation
    with valid lines allocates is one the read handler answered 404 for
    before the creation; after it, the read handler finds under that
    reference the document with the fields of the created operation
    (reference, locations, contact, schedule, status Draft, responsible,
    lines), and every operation that could be read before the creation is
    still read with the same fields. *)
Theorem created_operation_reads_back (w : World) (s : Store)
    (receipt_payload : ReceiptCreate.t) (delivery_payload : DeliveryCreate.t) :
  db w = Some s ->
  numbered_store s ->
  forallb (fun l => 0 <=? Line.quantity l)
          (ReceiptCreate.lines receipt_payload) = true ->
  forallb (fun l => 0 <=? Line.quantity l)
          (DeliveryCreate.lines delivery_payload) = true ->
  (exists rec w',
      create_receipt receipt_payload w = (Ok rec, w') /\
      get_receipt (Receipt.reference rec) w
      = (HTTPException 404 "Not found", w) /\
      get_receipt (Receipt.reference rec) w' = (Ok rec, w') /\
      Receipt.status rec = Some "Draft" /\
      Receipt.lines rec = Some (ReceiptCreate.lines receipt_payload) /\
      forall reference old,
        get_receipt reference w = (Ok old, w) ->
        get_receipt reference w' = (Ok old, w')) /\
  (exists doc w',
      create_delivery delivery_payload w = (Ok doc, w') /\
      get_delivery (Delivery.reference doc) w
      = (HTTPException 404 "Not found", w) /\
      get_delivery (Delivery.reference doc) w' = (Ok doc, w') /\
      Delivery.status doc = Some "Draft" /\
      Delivery.lines doc = Some (DeliveryCreate.lines delivery_payload) /\
      forall reference old,
        get_delivery reference w = (Ok old, w) ->
        get_delivery reference w' = (Ok old, w')).
Proof.
  intros Hdb Hnum Hrl Hdl. split.
  - destruct (create_receipt_run receipt_payload w s Hdb) as (d & t & Hrun).
    rewrite Hrl in Hrun.
    eexists _, _. split; [exact Hrun|]. split.
    { unfold get_receipt, bind, the_db. rewrite Hdb.
      rewrite find_one_none; [reflexivity|].
      apply (fresh_reference_matches_none Receipt.reference).
      destruct Hnum as (Hr & _).
      cbn [new_receipt Receipt.reference]. unfold count_documents.
      rewrite <- (length_map Receipt.reference (receipt s)).
      now apply numbered_fresh. }
    split.
    + apply get_receipt_run with
        (s := set_receipt (receipt s ++ [new_receipt s receipt_payload d]) s);
        [reflexivity|].
      now apply find_new_receipt.
    + split; [reflexivity|]. split; [reflexivity|].
      intros reference old Hold.
      apply get_receipt_run with
        (s := set_receipt (receipt s ++ [new_receipt s receipt_payload d]) s);
        [reflexivity|].
      cbn [receipt set_receipt]. apply find_one_kept.
      unfold get_receipt, bind, the_db in Hold. rewrite Hdb in Hold.
      destruct (find_one _ (receipt s)); [|discriminate Hold].
      unfold ret in Hold. congruence.
  - destruct (create_delivery_run delivery_payload w s Hdb) as (d & t & Hrun).
    rewrite Hdl in Hrun.
    eexists _, _. split; [exact Hrun|]. split.
    { unfold get_delivery, bind, the_db. rewrite Hdb.
      rewrite find_one_none; [reflexivity|].
      apply (fresh_reference_matches_none Delivery.reference).
      destruct Hnum as (_ & Hd).
      cbn [new_delivery Delivery.reference]. unfold count_documents.
      rewrite <- (length_map Delivery.reference (delivery s)).
      now apply numbered_fresh. }
    split.
    + apply get_delivery_run with
        (s := set_delivery
                (delivery s ++ [new_delivery s delivery_payload d]) s);
        [reflexivity|].
      now apply find_new_delivery.
    + split; [reflexivity|]. split; [reflexivity|].
      intros reference old Hold.
      apply get_delivery_run with
        (s := set_delivery
                (delivery s ++ [new_delivery s delivery_payload d]) s);
        [reflexivity|].
      cbn [delivery set_delivery]. apply find_one_kept.
      unfold get_delivery, bind, the_db in Hold. rewrite Hdb in Hold.
      destruct (find_one _ (delivery s)); [|discriminate Hold].
      unfold ret in Hold. congruence.
Qed.

Lemma created_operation_reads_back_witness :
  exists rec w',
    create_receipt (ReceiptCreate.mk None None None None [line "DESK001" 5])
                   demo_world = (Ok rec, w') /\
    Receipt.reference rec = "WH/IN/0005" /\
    get_receipt "WH/IN/0005" demo_world
    = (HTTPException 404 "Not found", demo_world) /\
    get_receipt "WH/IN/0005" w' = (Ok rec, w') /\
    get_receipt "WH/IN/0003" w'
    = (Ok (demo_receipt "WH/IN/0003" "Done" [line "DESK001" 7]), w').
Proof.
  destruct (created_operation_reads_back demo_world demo_store
              (ReceiptCreate.mk None None None None [line "DESK001" 5])
              (DeliveryCreate.mk None None None [])
              eq_refl demo_store_numbered eq_refl eq_refl)
    as ((rec & w' & Hrun & Hfresh & Hget & _ & _ & Hold) & _).
  assert (Href : Receipt.reference rec = "WH/IN/0005").
  { unfold create_receipt, bind, the_db, date_or_now, utcnow, validate_lines,
      modify_db, ret in Hrun. simpl in Hrun.
    injection Hrun as <- _. reflexivity. }
  rewrite Href in Hfresh, Hget.
  exists rec, w'.
  split; [exact Hrun|]. split; [exact Href|]. split; [exact Hfresh|].
  split; [exact Hget|].
  apply Hold. reflexivity.
Defined.



(** X12.  A creation whose payload has a line of negative quantity is
    rejected by the validation of the document model: the handler ends in a
    ValidationError and the store is left as it was, no operation being
    stored and no reference used up. *)
Theorem rejected_creation_stores_nothing (w : World) (s : Store)
    (receipt_payload : ReceiptCreate.t) (delivery_payload : DeliveryCreate.t)
    (l l' : Line.t) :
  db w = Some s ->
  In l (ReceiptCreate.lines receipt_payload) -> Line.quantity l < 0 ->
  In l' (DeliveryCreate.lines delivery_payload) -> Line.quantity l' < 0 ->
  (exists w',
      create_receipt receipt_payload w = (Uncaught "ValidationError", w') /\
      db w' = Some s) /\
  (exists w',
      create_delivery delivery_payload w = (Uncaught "ValidationError", w') /\
      db w' = Some s).
Proof.
  intros Hdb Hl Hq Hl' Hq'.
  assert (Hbad : forall ls (x : Line.t),
             In x ls -> Line.quantity x < 0 ->
             forallb (fun l => 0 <=? Line.quantity l) ls = false).
  { intros ls x Hx Hneg.
    destruct (forallb _ ls) eqn:E; [|reflexivity].
    rewrite forallb_forall in E. specialize (E x Hx).
    apply Z.leb_le in E. lia. }
  split.
  - destruct (create_receipt_run receipt_payload w s Hdb) as (d & t & Hrun).
    rewrite (Hbad _ l Hl Hq) in Hrun. eexists. split; [exact Hrun|reflexivity].
  - destruct (create_delivery_run delivery_payload w s Hdb) as (d & t & Hrun).
    rewrite (Hbad _ l' Hl' Hq') in Hrun.
    eexists. split; [exact Hrun|reflexivity].
Qed.

Lemma rejected_creation_stores_nothing_witness :
  exists w',
    create_receipt (ReceiptCreate.mk None None None None [line "DESK001" (-1)])
                   demo_world = (Uncaught "ValidationError", w') /\
    db w' = Some demo_store.
Proof.
  destruct (rejected_creation_stores_nothing demo_world demo_store
              (ReceiptCreate.mk None None None None [line "DESK001" (-1)])
              (DeliveryCreate.mk None None None [line "DESK001" (-1)])
              (line "DESK001" (-1)) (line "DESK001" (-1))
              eq_refl (or_introl eq_refl) eq_refl (or_introl eq_refl) eq_refl)
    as (Hr & _).
  exact Hr.
Defined.

(** X13.  With no database configured, the creation handlers raise 500
    "DB not available" and [seed] raises 500 "Database not configured",
    before reading the clock; the action and read handlers, which do not
    test the handle, end in the TypeError of subscripting it.  The world is
    left as it was in every case. *)
Theorem without_database (w : World) (cfg : Settings)
    (receipt_payload : ReceiptCreate.t) (delivery_payload : DeliveryCreate.t)
    (t : OperationType) (reference action : string) :
  db w = None ->
  create_receipt receipt_payload w
  = (HTTPException 500 "DB not available", w) /\
  create_delivery delivery_payload w
  = (HTTPException 500 "DB not available", w) /\
  seed cfg w = (HTTPException 500 "Database not configured", w) /\
  operation_action t reference action w = (Uncaught "TypeError", w) /\
  get_receipt reference w = (Uncaught "TypeError", w) /\
  get_delivery reference w = (Uncaught "TypeError", w).
Proof.
  intros Hdb.
  unfold create_receipt, create_delivery, seed, get_receipt, get_delivery.
  rewrite Hdb. repeat split.
  - destruct t; simpl; unfold receipt_action, delivery_action, bind, the_db;
      now rewrite Hdb.
  - unfold bind, the_db. now rewrite Hdb.
  - unfold bind, the_db. now rewrite Hdb.
Qed.

Lemma without_database_witness :
  create_receipt (ReceiptCreate.mk None None None None [])
                 (mkWorld None (fun n => Z.of_nat n) 0)
  = (HTTPException 500 "DB not available",
     mkWorld None (fun n => Z.of_nat n) 0).
Proof.
  apply (without_database (mkWorld None (fun n => Z.of_nat n) 0)
           (mkSettings [] []) (ReceiptCreate.mk None None None None [])
           (DeliveryCreate.mk None None None []) IsReceipt "WH/IN/0001" "todo"
           eq_refl).
Defined.

(** X14.  The stock check of [todo] looks at one line at a time and
    [validate] checks nothing: a Draft delivery whose lines each ask no
    more than their product has free, but which together ask more of one
    sku than is free, becomes Ready under [todo] and Done under
    [validate], leaving that product with a negative free_to_use. *)
Theorem stock_check_is_per_line (w : World) (s : Store) (rec : Delivery.t)
    (reference sku : string) (p : Product.t) :
  db w = Some s ->
  find_one (by_delivery_reference reference) (delivery s) = Some rec ->
  get (Delivery.status rec) "Draft" = "Draft" ->
  (forall l, In l (get (Delivery.lines rec) []) ->
     exists q,
       find_one (by_sku (Line.product_sku l)) (product s) = Some q /\
       Line.quantity l <= get (Product.free_to_use q) 0) ->
  find_one (by_sku sku) (product s) = Some p ->
  get (Product.free_to_use p) 0
  < total_quantity sku (get (Delivery.lines rec) []) ->
  exists w1 w2 s2 p',
    delivery_action reference "todo" w
    = (Ok (Response.mk reference "Ready"), w1) /\
    delivery_action reference "validate" w1
    = (Ok (Response.mk reference "Done"), w2) /\
    db w2 = Some s2 /\
    find_one (by_sku sku) (product s2) = Some p' /\
    get (Product.free_to_use p') 0
    = get (Product.free_to_use p) 0
      - total_quantity sku (get (Delivery.lines rec) []) /\
    get (Product.free_to_use p') 0 < 0.
Proof.
  intros Hdb Hrec Hst Hall Hp Hover.
  pose proof (delivery_todo_run w s rec reference Hdb Hrec Hst) as Htodo.
  unfold short_lines in Htodo. rewrite filter_none in Htodo.
  2:{ intros l Hl. destruct (Hall l Hl) as (q & -> & Hq). simpl. lia. }
  set (s1 := persist_status IsDelivery reference "Ready" s) in *.
  set (w1 := mkWorld (Some s1) (clock w) (ticks w)) in *.
  assert (Hf1 : find_one (by_delivery_reference reference) (delivery s1)
                = Some (Delivery.set_status "Ready" rec)).
  { subst s1. cbn [persist_status delivery set_delivery].
    now rewrite find_delivery_persisted, Hrec. }
  pose proof (delivery_validate_run w1 s1 (Delivery.set_status "Ready" rec)
                reference eq_refl Hf1 eq_refl) as Hval.
  cbn [Delivery.set_status Delivery.lines] in Hval.
  destruct (find_one_apply_stock (fun l => - Line.quantity l) sku
              (get (Delivery.lines rec) []) (product s1) p Hp)
    as (p' & Hf & _ & _ & _ & Hfree).
  rewrite total_quantity_minus in Hfree.
  eexists w1, _, _, p'.
  split; [exact Htodo|]. split; [exact Hval|]. split; [reflexivity|].
  cbn [product]. split; [exact Hf|]. split; lia.
Qed.

Lemma stock_check_is_per_line_witness :
  exists w1 w2 s2 p',
    delivery_action "WH/OUT/0001" "todo"
      (mkWorld
         (Some (mkStore [desk] []
                  [demo_delivery "WH/OUT/0001" "Draft"
                     [line "DESK001" 30; line "DESK001" 30]] []))
         (fun n => Z.of_nat n) 0)
    = (Ok (Response.mk "WH/OUT/0001" "Ready"), w1) /\
    delivery_action "WH/OUT/0001" "validate" w1
    = (Ok (Response.mk "WH/OUT/0001" "Done"), w2) /\
    db w2 = Some s2 /\
    find_one (by_sku "DESK001") (product s2) = Some p' /\
    get (Product.free_to_use p') 0 = 45 - 60.
Proof.
  destruct (stock_check_is_per_line
              (mkWorld
                 (Some (mkStore [desk] []
                          [demo_delivery "WH/OUT/0001" "Draft"
                             [line "DESK001" 30; line "DESK001" 30]] []))
                 (fun n => Z.of_nat n) 0)
              (mkStore [desk] []
                 [demo_delivery "WH/OUT/0001" "Draft"
                    [line "DESK001" 30; line "DESK001" 30]] [])
              (demo_delivery "WH/OUT/0001" "Draft"
                 [line "DESK001" 30; line "DESK001" 30])
              "WH/OUT/0001" "DESK001" desk eq_refl eq_refl eq_refl)
    as (w1 & w2 & s2 & p' & Ht & Hv & Hdb & Hf & Hfree & _).
  - intros l [<- | [<- | []]]; exists desk; (split; [reflexivity | simpl; lia]).
  - reflexivity.
  - reflexivity.
  - exists w1, w2, s2, p'. auto.
Defined.

(** ** Seeding *)

Section Upsert.
Context {D : Type}.
Variables (filt : D -> bool) (doc : D).

Lemma upsert_extends (col : list D) :
  exists added, upsert filt doc col = (col ++ added)%list.
Proof.
  unfold upsert. destruct (find_one filt col).
  - exists []. now rewrite app_nil_r.
  - exists [doc]. reflexivity.
Qed.

Lemma upsert_found (col : list D) :
  find_one filt col <> None -> upsert filt doc col = col.
Proof.
  unfold upsert. destruct (find_one filt col); [reflexivity | now intros []].
Qed.

Lemma find_one_app_l (other : D -> bool) (col added : list D) (d : D) :
  find_one other col = Some d -> find_one other (col ++ added) = Some d.
Proof.
  unfold find_one. induction col as [|x rest IH]; simpl; [discriminate|].
  destruct (other x); [trivial | exact IH].
Qed.

Lemma upsert_keeps (other : D -> bool) (col : list D) (d : D) :
  find_one other col = Some d -> find_one other (upsert filt doc col) = Some d.
Proof.
  intros Hd. destruct (upsert_extends col) as (added & ->).
  now apply find_one_app_l.
Qed.

Lemma upsert_finds (col : list D) :
  filt doc = true -> find_one filt (upsert filt doc col) <> None.
Proof.
  intros Hdoc. unfold upsert.
  destruct (find_one filt col) as [d|] eqn:E; [now rewrite E|].
  unfold create_document.
  rewrite find_one_last; [discriminate | | exact Hdoc].
  intros d Hd. destruct (filt d) eqn:Ed; [|reflexivity].
  unfold find_one in E. apply (find_none _ _ E) in Hd. congruence.
Qed.
End Upsert.

Lemma found_is_kept {D : Type} (f : D -> bool) (doc : D) (other : D -> bool)
    (col : list D) :
  find_one other col <> None ->
  find_one other (upsert f doc col) <> None.
Proof.
  destruct (find_one other col) as [d|] eqn:E; [|now intros []].
  intros _. now rewrite (upsert_keeps f doc other col d E).
Qed.

Lemma seed_run (cfg : Settings) (w : World) (s : Store) :
  db w = Some s ->
  seed cfg w
  = (Ok ("ok", seeded_settings cfg),
     mkWorld (Some (seeded_store s (clock w) (ticks w))) (clock w)
             (ticks w + clock_reads (receipt s) + clock_reads (delivery s))).
Proof.
  intros Hdb. destruct w as [o c t]. simpl in Hdb. subst o.
  destruct s as [ps rs ds ms].
  unfold seed, seeded_store, seeded_settings, clock_reads, bind, modify_db,
    the_db, utcnow, ret, count_documents.
  cbn [db clock ticks product receipt delivery move set_product set_receipt
       set_delivery].
  destruct rs, ds; cbn [List.length Nat.eqb db clock ticks product receipt
                        delivery move];
    rewrite ?Nat.add_0_r, ?Nat.add_1_r; reflexivity.
Qed.

Lemma seeded_after_seed (cfg : Settings) (s : Store) (c : nat -> datetime)
    (t : nat) :
  seeded (seeded_settings cfg) (seeded_store s c t).
Proof.
  unfold seeded, seeded_settings, seeded_store.
  cbn [warehouse location product receipt delivery].
  repeat split.
  - now apply upsert_finds.
  - apply found_is_kept. now apply upsert_finds.
  - now apply upsert_finds.
  - apply found_is_kept. now apply upsert_finds.
  - now apply upsert_finds.
  - unfold count_documents, create_document.
    destruct (receipt s); simpl; discriminate.
  - unfold count_documents, create_document.
    destruct (delivery s); simpl; discriminate.
Qed.

Lemma seed_of_seeded (cfg : Settings) (s : Store) (c : nat -> datetime)
    (t : nat) :
  seeded cfg s ->
  seeded_settings cfg = cfg /\ seeded_store s c t = s /\
  clock_reads (receipt s) = 0%nat /\ clock_reads (delivery s) = 0%nat.
Proof.
  intros (Hw & Hs & Hc & Hd & Ht & Hr & Hdl).
  unfold seeded_settings, seeded_store, clock_reads, count_documents.
  rewrite (upsert_found _ _ (warehouse cfg) Hw).
  rewrite (upsert_found _ _ (location cfg) Hs).
  rewrite (upsert_found _ _ (location cfg) Hc).
  rewrite (upsert_found _ _ (product s) Hd).
  rewrite (upsert_found _ _ (product s) Ht).
  destruct (receipt s) eqn:Er; [now elim Hr|].
  destruct (delivery s) eqn:Ed; [now elim Hdl|].
  cbn [List.length Nat.eqb].
  repeat split.
  - now destruct cfg.
  - destruct s; simpl in *. congruence.
Qed.

(** X15.  [seed] is idempotent: on a configured database it answers "ok",
    and a second [seed] right after it answers "ok" again and changes
    nothing, neither a collection nor the clock. *)
Theorem seed_is_idempotent (cfg : Settings) (w : World) (s : Store) :
  db w = Some s ->
  exists cfg1 w1,
    seed cfg w = (Ok ("ok", cfg1), w1) /\
    seed cfg1 w1 = (Ok ("ok", cfg1), w1).
Proof.
  intros Hdb. eexists _, _. split; [exact (seed_run cfg w s Hdb)|].
  rewrite (seed_run (seeded_settings cfg)
             (mkWorld (Some (seeded_store s (clock w) (ticks w))) (clock w)
                (ticks w + clock_reads (receipt s) + clock_reads (delivery s)))
             (seeded_store s (clock w) (ticks w)) eq_refl).
  cbn [db clock ticks].
  destruct (seed_of_seeded (seeded_settings cfg)
              (seeded_store s (clock w) (ticks w)) (clock w)
              (ticks w + clock_reads (receipt s) + clock_reads (delivery s))
              (seeded_after_seed cfg s (clock w) (ticks w)))
    as (-> & -> & -> & ->).
  now rewrite !Nat.add_0_r.
Qed.

Lemma seed_is_idempotent_witness :
  exists cfg1 w1,
    seed (mkSettings [] []) world0 = (Ok ("ok", cfg1), w1) /\
    seed cfg1 w1 = (Ok ("ok", cfg1), w1).
Proof.
  exact (seed_is_idempotent (mkSettings [] []) world0 empty_store eq_refl).
Defined.

(** X16.  [seed] only adds what is missing: every collection it leaves
    starts with the collection it found, the ledger is untouched, a product
    found under a sku before is found unchanged after (stock is not reset),
    operations are added only to an empty collection, and afterwards the
    warehouse, both locations and both products are found and neither
    operation collection is empty.  Numbering in creation order is
    kept. *)
Theorem seed_only_adds (cfg : Settings) (w : World) (s : Store) :
  db w = Some s ->
  exists cfg1 w1 s1,
    seed cfg w = (Ok ("ok", cfg1), w1) /\
    db w1 = Some s1 /\
    seeded cfg1 s1 /\
    (exists added, warehouse cfg1 = (warehouse cfg ++ added)%list) /\
    (exists added, location cfg1 = (location cfg ++ added)%list) /\
    (exists added, product s1 = (product s ++ added)%list) /\
    (exists added, receipt s1 = (receipt s ++ added)%list) /\
    (exists added, delivery s1 = (delivery s ++ added)%list) /\
    move s1 = move s /\
    (forall sku p, find_one (by_sku sku) (product s) = Some p ->
                   find_one (by_sku sku) (product s1) = Some p) /\
    (receipt s <> [] -> receipt s1 = receipt s) /\
    (delivery s <> [] -> delivery s1 = delivery s) /\
    (numbered_store s -> numbered_store s1).
Proof.
  intros Hdb.
  eexists (seeded_settings cfg), _, (seeded_store s (clock w) (ticks w)).
  split; [exact (seed_run cfg w s Hdb)|]. split; [reflexivity|].
  split; [apply seeded_after_seed|].
  unfold seeded_settings, seeded_store.
  cbn [warehouse location product receipt delivery move].
  split; [apply upsert_extends|].
  split.
  { destruct (upsert_extends (by_location_code "STOCK")
                (Location.mk "Stock" "STOCK" "WH") (location cfg))
      as (a1 & ->).
    destruct (upsert_extends (by_location_code "CUSTOMER")
                (Location.mk "Customer" "CUSTOMER" "WH") (location cfg ++ a1))
      as (a2 & ->).
    exists (a1 ++ a2)%list. now rewrite app_assoc. }
  split.
  { destruct (upsert_extends (by_sku "DESK001") desk (product s)) as (a1 & ->).
    destruct (upsert_extends (by_sku "TABLE001") table (product s ++ a1))
      as (a2 & ->).
    exists (a1 ++ a2)%list. now rewrite app_assoc. }
  unfold count_documents, create_document.
  split.
  { destruct (receipt s); simpl; [eexists; reflexivity|].
    exists []. now rewrite app_nil_r. }
  split.
  { destruct (delivery s); simpl; [eexists; reflexivity|].
    exists []. now rewrite app_nil_r. }
  split; [reflexivity|].
  split.
  { intros sku p Hp. now apply upsert_keeps, upsert_keeps. }
  split.
  { destruct (receipt s); simpl; [now intros [] | reflexivity]. }
  split.
  { destruct (delivery s); simpl; [now intros [] | reflexivity]. }
  intros (Hr & Hd). unfold numbered_store. cbn [receipt delivery].
  split.
  - destruct (receipt s); simpl; [|exact Hr].
    intros [|[|i]] r H; simpl in H; try discriminate H.
    now injection H as <-.
  - destruct (delivery s); simpl; [|exact Hd].
    intros [|[|i]] r H; simpl in H; try discriminate H.
    now injection H as <-.
Qed.

Lemma seed_only_adds_witness :
  exists cfg1 w1 s1,
    seed (mkSettings [] []) demo_world = (Ok ("ok", cfg1), w1) /\
    db w1 = Some s1 /\
    receipt s1 = receipt demo_store /\
    find_one (by_sku "DESK001") (product s1) = Some desk.
Proof.
  destruct (seed_only_adds (mkSettings [] []) demo_world demo_store eq_refl)
    as (cfg1 & w1 & s1 & Hrun & Hdb & _ & _ & _ & _ & _ & _ & _ & Hkeep & Hr
        & _).
  exists cfg1, w1, s1. split; [exact Hrun|]. split; [exact Hdb|].
  split; [apply Hr; discriminate | apply Hkeep; reflexivity].
Defined.

(** ** Serialization *)

Lemma dict_get_set_same (k : string) (v : value) (d : dict) :
  dict_get k (dict_set k v d) = Some v.
Proof.
  unfold dict_get. induction d as [|(k', v') rest IH]; simpl.
  - now rewrite String.eqb_refl.
  - destruct (String.eqb k' k) eqn:E; simpl.
    + now rewrite String.eqb_refl.
    + now rewrite E.
Qed.

Lemma dict_get_set_other (k k' : string) (v : value) (d : dict) :
  k' <> k -> dict_get k' (dict_set k v d) = dict_get k' d.
Proof.
  intros Hne. unfold dict_get.
  induction d as [|(k0, v0) rest IH]; simpl.
  - apply String.eqb_neq in Hne. rewrite String.eqb_sym in Hne.
    now rewrite Hne.
  - destruct (String.eqb k0 k) eqn:E; simpl.
    + apply String.eqb_eq in E. subst k0.
      apply String.eqb_neq in Hne. rewrite String.eqb_sym in Hne.
      now rewrite Hne.
    + destruct (String.eqb k0 k'); [reflexivity | exact IH].
Qed.

Lemma dict_get_pop_other (k k' : string) (d : dict) :
  k' <> k -> dict_get k' (dict_pop k d) = dict_get k' d.
Proof.
  intros Hne. unfold dict_get.
  induction d as [|(k0, v0) rest IH]; simpl; [reflexivity|].
  destruct (String.eqb k0 k) eqn:E; simpl.
  - apply String.eqb_eq in E. subst k0.
    apply String.eqb_neq in Hne. rewrite String.eqb_sym in Hne.
    now rewrite Hne.
  - destruct (String.eqb k0 k'); [reflexivity | exact IH].
Qed.

Lemma dict_get_absent (k : string) (d : dict) :
  ~ In k (keys d) -> dict_get k d = None.
Proof.
  unfold dict_get, keys.
  induction d as [|(k0, v0) rest IH]; simpl; [reflexivity|].
  intros Hnot. destruct (String.eqb k0 k) eqn:E.
  - apply String.eqb_eq in E. subst k0. elim Hnot. now left.
  - apply IH. intros Hin. apply Hnot. now right.
Qed.

Lemma keys_pop_subset (k x : string) (d : dict) :
  In x (keys (dict_pop k d)) -> In x (keys d).
Proof.
  unfold keys. induction d as [|(k0, v0) rest IH]; simpl; [trivial|].
  destruct (String.eqb k0 k); simpl; intuition.
Qed.

Lemma dict_pop_removes (k : string) (d : dict) :
  NoDup (keys d) -> ~ In k (keys (dict_pop k d)) /\ NoDup (keys (dict_pop k d)).
Proof.
  unfold keys. induction d as [|(k0, v0) rest IH]; simpl; intros Hnd.
  - split; [tauto | constructor].
  - inversion Hnd as [|x xs Hx Hrest]; subst.
    destruct (String.eqb k0 k) eqn:E; simpl.
    + apply String.eqb_eq in E. subst k0. split; assumption.
    + destruct (IH Hrest) as (Hnot & Hnd').
      apply String.eqb_neq in E. split.
      * intros [Heq | Hin]; [congruence | contradiction].
      * constructor; [|exact Hnd'].
        intros Hin. apply Hx. now apply (keys_pop_subset k).
Qed.

Lemma keys_set (k : string) (v : value) (d : dict) :
  NoDup (keys d) ->
  NoDup (keys (dict_set k v d)) /\
  forall x, In x (keys (dict_set k v d)) -> x = k \/ In x (keys d).
Proof.
  unfold keys. induction d as [|(k0, v0) rest IH]; simpl; intros Hnd.
  - split; [constructor; [intros [] | constructor]|].
    intros x [<- | []]. now left.
  - inversion Hnd as [|x xs Hx Hrest]; subst.
    destruct (String.eqb k0 k) eqn:E; simpl.
    + apply String.eqb_eq in E. subst k0. split; [exact Hnd | tauto].
    + destruct (IH Hrest) as (Hnd' & Hsub). split.
      * constructor; [|exact Hnd'].
        intros Hin. apply Hsub in Hin. destruct Hin as [-> | Hin].
        -- rewrite String.eqb_refl in E. discriminate E.
        -- contradiction.
      * intros x [-> | Hin]; [tauto|].
        apply Hsub in Hin. tauto.
Qed.

(** X17.  [obj_to_dict] on a document whose [_id] is truthy answers a
    dictionary in which "id" holds [str] of the identifier (whatever "id"
    held before), "_id" is gone, every other key holds what it held, and
    no key occurs twice. *)
Theorem obj_to_dict_renames_id (d : dict) (id : value) :
  NoDup (keys d) ->
  dict_get "_id" d = Some id ->
  truthy id = true ->
  exists d',
    obj_to_dict (Dict d) = Dict d' /\
    dict_get "id" d' = Some (VStr (py_str id)) /\
    dict_get "_id" d' = None /\
    (forall k, k <> "_id" -> k <> "id" -> dict_get k d' = dict_get k d) /\
    NoDup (keys d').
Proof.
  intros Hnd Hid Htrue.
  destruct (dict_pop_removes "_id" d Hnd) as (Hgone & Hnd1).
  destruct (keys_set "id" (VStr (py_str id)) _ Hnd1) as (Hnd2 & _).
  eexists. split; [unfold obj_to_dict; now rewrite Hid, Htrue|].
  split; [apply dict_get_set_same|].
  split.
  - rewrite dict_get_set_other by discriminate.
    now apply dict_get_absent.
  - split; [|exact Hnd2].
    intros k Hk1 Hk2.
    rewrite dict_get_set_other by exact Hk2.
    now apply dict_get_pop_other.
Qed.

Lemma obj_to_dict_renames_id_witness :
  exists d',
    obj_to_dict (Dict [("_id", VObjectId "65f0c0ffee"); ("sku", VStr "DESK001");
                       ("id", VInt 7)])
    = Dict d' /\
    dict_get "id" d' = Some (VStr "65f0c0ffee") /\
    dict_get "_id" d' = None.
Proof.
  destruct (obj_to_dict_renames_id
              [("_id", VObjectId "65f0c0ffee"); ("sku", VStr "DESK001");
               ("id", VInt 7)] (VObjectId "65f0c0ffee"))
    as (d' & Hrun & Hid & Hgone & _).
  - repeat constructor; simpl; intuition discriminate.
  - reflexivity.
  - reflexivity.
  - exists d'. auto.
Defined.

(** X18.  [obj_to_dict] is idempotent, and it is the identity on what is
    not a dictionary and on a dictionary without an [_id] or with a falsy
    one (None, False, 0 or the empty string). *)
Theorem obj_to_dict_idempotent (obj : pyobj) :
  match obj with Dict d => NoDup (keys d) | NotDict _ => True end ->
  obj_to_dict (obj_to_dict obj) = obj_to_dict obj /\
  match obj with
  | Dict d =>
      match dict_get "_id" d with
      | Some id => truthy id = false -> obj_to_dict obj = obj
      | None => obj_to_dict obj = obj
      end
  | NotDict _ => obj_to_dict obj = obj
  end.
Proof.
  destruct obj as [d|v]; intros Hwf; [|split; reflexivity].
  unfold obj_to_dict at 2 3.
  destruct (dict_get "_id" d) as [id|] eqn:Hid.
  - destruct (truthy id) eqn:Htrue.
    + split; [|discriminate].
      unfold obj_to_dict.
      rewrite dict_get_set_other by discriminate.
      destruct (dict_pop_removes "_id" d Hwf) as (Hgone & _).
      now rewrite (dict_get_absent _ _ Hgone).
    + split; [|intros _; unfold obj_to_dict; now rewrite Hid, Htrue].
      unfold obj_to_dict. now rewrite Hid, Htrue.
  - split; unfold obj_to_dict; now rewrite Hid.
Qed.

Lemma obj_to_dict_idempotent_witness :
  obj_to_dict
    (obj_to_dict (Dict [("sku", VStr "DESK001"); ("_id", VInt 12)]))
  = obj_to_dict (Dict [("sku", VStr "DESK001"); ("_id", VInt 12)]).
Proof.
  apply (obj_to_dict_idempotent
           (Dict [("sku", VStr "DESK001"); ("_id", VInt 12)])).
  repeat constructor; simpl; intuition discriminate.
Defined.

(** ** Demo authentication *)

(** X19.  [login] checks no password: it raises 400 "Missing credentials"
    exactly when the login or the password is empty, and two requests with
    the same login and any two non-empty passwords get the same answer,
    the fixed token "demo-token" for a non-empty login. *)
Theorem login_accepts_any_password (p q : LoginRequest.t) :
  LoginRequest.login_id p = LoginRequest.login_id q ->
  LoginRequest.password p <> "" ->
  LoginRequest.password q <> "" ->
  login p = login q /\
  (login p = HTTPException 400 "Missing credentials"
   <-> LoginRequest.login_id p = "") /\
  (LoginRequest.login_id p <> "" ->
   exists r, login p = Ok r /\ LoginResponse.token r = "demo-token" /\
             LoginResponse.login_id r = LoginRequest.login_id p).
Proof.
  intros Hid Hp Hq. unfold login. rewrite <- Hid.
  apply String.eqb_neq in Hp, Hq. rewrite Hp, Hq, !orb_false_r.
  split; [reflexivity|].
  destruct (String.eqb (LoginRequest.login_id p) "") eqn:E.
  - apply String.eqb_eq in E. split; [tauto|]. intros Hne. contradiction.
  - apply String.eqb_neq in E. split.
    + split; [discriminate | contradiction].
    + intros _. eexists. repeat split.
Qed.

Lemma login_accepts_any_password_witness :
  login (LoginRequest.mk "ann" "right") = login (LoginRequest.mk "ann" "wrong").
Proof.
  apply (login_accepts_any_password (LoginRequest.mk "ann" "right")
           (LoginRequest.mk "ann" "wrong") eq_refl); discriminate.
Defined.

(** X20.  [forgot] without a one-time code (absent or empty) answers
    "OTP sent to email" whatever the passwords are; with a code it answers
    "Password reset successful" exactly when the new password and its
    confirmation are equal, both absent included, and raises 400
    "Passwords do not match" otherwise.  The code itself is never
    checked. *)
Theorem forgot_outcomes (payload : ForgotPayload.t) (code : string) :
  code <> "" ->
  (ForgotPayload.otp payload = None \/ ForgotPayload.otp payload = Some "" ->
   forgot payload = Ok "OTP sent to email") /\
  (ForgotPayload.otp payload = Some code ->
   (ForgotPayload.new_password payload = ForgotPayload.confirm_password payload
    -> forgot payload = Ok "Password reset successful") /\
   (ForgotPayload.new_password payload <> ForgotPayload.confirm_password payload
    -> forgot payload = HTTPException 400 "Passwords do not match")).
Proof.
  intros Hcode. unfold forgot. split.
  - intros [-> | ->]; reflexivity.
  - intros ->. cbn [get]. apply String.eqb_neq in Hcode. rewrite Hcode.
    cbn [negb].
    destruct (ForgotPayload.new_password payload) as [a|],
             (ForgotPayload.confirm_password payload) as [b|]; simpl.
    + destruct (String.eqb a b) eqn:E; simpl.
      * apply String.eqb_eq in E. subst. split; [reflexivity|].
        intros Hne. now elim Hne.
      * apply String.eqb_neq in E. split; [|reflexivity].
        intros [= Heq]. contradiction.
    + split; [discriminate | reflexivity].
    + split; [discriminate | reflexivity].
    + split; [reflexivity|]. intros Hne. now elim Hne.
Qed.

Lemma forgot_outcomes_witness :
  forgot (ForgotPayload.mk "ann@example.org" (Some "000000") None None)
  = Ok "Password reset successful".
Proof.
  destruct (forgot_outcomes
              (ForgotPayload.mk "ann@example.org" (Some "000000") None None)
              "000000") as (_ & Hwith); [discriminate|].
  destruct (Hwith eq_refl) as (Hsame & _). apply Hsame. reflexivity.
Defined.
